(** * The PTT forum scraper of [Stockk_ui.py]

    A shallow embedding of the class [PTTScraper] (lines 30-143 of
    [src/Stockk_ui.py]): the retrying fetcher [_make_request], the listing
    extractor [get_ptt_stock_posts] with [_extract_post_info], the content
    extractor [_get_post_content] and the sanitizer [_clean_text].

    Python values are modelled as follows.
    - A [str] is the list of its Unicode code points ([list N]); the regular
      expressions of [_clean_text] work on code points, not on bytes.
    - A [dict] with string keys and string values is a [gmap (list N) (list N)].
    - The document tree that [BeautifulSoup] builds is the inductive [Node].
    - The network, the random generator, the HTML parser and the Unicode
      character database are not part of the repository: they are the fields
      of an environment [Env], over which every theorem is universally
      quantified.  Effects (GET requests, sleeps, log entries, exceptions) are
      threaded through a state-and-exception monad [M]. *)

From Stdlib Require Import NArith ZArith QArith Lia.
From Stdlib Require Import Ascii String.
From stdpp Require Import base list strings gmap.

Set Warnings "-register-all".

(** ** Python strings *)

(** A Python [str]: the sequence of its code points. *)
Abbreviation str := (list N).

(** An ASCII literal of the source as a [str]. *)
Definition py (s : string) : str :=
  List.map N_of_ascii (list_ascii_of_string s).

Module Text.
Local Open Scope N_scope.

(** [Py_UNICODE_ISSPACE]: the characters that both the regular expression
    class [\s] (on a [str] pattern) and [str.strip()] treat as whitespace. *)
Definition is_space (c : N) : bool :=
  ((0x09 <=? c) && (c <=? 0x0D)) || ((0x1C <=? c) && (c <=? 0x20))
  || (c =? 0x85) || (c =? 0xA0) || (c =? 0x1680)
  || ((0x2000 <=? c) && (c <=? 0x200A))
  || (c =? 0x2028) || (c =? 0x2029) || (c =? 0x202F) || (c =? 0x205F)
  || (c =? 0x3000).

(** [str.isalnum] on an ASCII character: a digit or a letter. *)
Definition ascii_isalnum (c : N) : bool :=
  ((0x30 <=? c) && (c <=? 0x39)) || ((0x41 <=? c) && (c <=? 0x5A))
  || ((0x61 <=? c) && (c <=? 0x7A)).

Section Sanitizer.

(** [Py_UNICODE_ISALNUM] on the code points from 128 on is a table of the
    interpreter's Unicode database; it is a parameter here. *)
Variable unicode_isalnum : N -> bool.

Definition isalnum (c : N) : bool :=
  if c <? 128 then ascii_isalnum c else unicode_isalnum c.

(** The class [\w] of a [str] pattern: alphanumeric or the underscore. *)
Definition is_word (c : N) : bool := isalnum c || (c =? 0x5F).

(** The characters listed inside the negated class
    [[^\w\s\u4e00-\u9fff.,!?...]] (the last four being U+FF0C, U+3002,
    U+FF01 and U+FF1F) of line 142: those that the second
    substitution keeps. *)
Definition allowed (c : N) : bool :=
  is_word c || is_space c || ((0x4E00 <=? c) && (c <=? 0x9FFF))
  || (c =? 0x2E) || (c =? 0x2C) || (c =? 0x21) || (c =? 0x3F)
  || (c =? 0xFF0C) || (c =? 0x3002) || (c =? 0xFF01) || (c =? 0xFF1F).

(** [re.sub(r'\s+', ' ', text)]: scanning from the left, every maximal run
    of whitespace is replaced by one U+0020.  [in_run] tells that the
    previous character belonged to the run being replaced. *)
Fixpoint sub_ws_from (in_run : bool) (text : str) : str :=
  match text with
  | [] => []
  | c :: rest =>
      if is_space c
      then (if in_run then sub_ws_from true rest
            else 0x20 :: sub_ws_from true rest)
      else c :: sub_ws_from false rest
  end.

Definition sub_ws (text : str) : str := sub_ws_from false text.

(** [re.sub(r'[^...]', '', text)]: every character outside the class is
    deleted. *)
Definition sub_disallowed (text : str) : str := List.filter allowed text.

(** [str.lstrip()], [str.rstrip()] and [str.strip()] without argument. *)
Fixpoint lstrip (s : str) : str :=
  match s with
  | [] => []
  | c :: rest => if is_space c then lstrip rest else s
  end.

Fixpoint rstrip (s : str) : str :=
  match s with
  | [] => []
  | c :: rest =>
      match rstrip rest with
      | [] => if is_space c then [] else [c]
      | kept => c :: kept
      end
  end.

Definition strip (s : str) : str := rstrip (lstrip s).

(** [PTTScraper._clean_text] (lines 136-143). *)
Definition _clean_text (text : str) : str :=
  let text := sub_ws text in
  let text := sub_disallowed text in
  strip text.

End Sanitizer.
End Text.

(** ** The document tree of BeautifulSoup *)

Module Soup.

(** A node of the parsed document: a text node, or a tag with its name, the
    tokens of its multi-valued [class] attribute, its other attributes (a
    [dict] from attribute name to value) and its children in document
    order.  The [BeautifulSoup] object itself is the root tag. *)
Inductive Node : Type :=
| NavigableString (s : str)
| Tag (name : str) (classes : list str) (attrs : gmap str str)
      (contents : list Node).

Definition name_is (n : str) (x : Node) : bool :=
  match x with
  | NavigableString _ => false
  | Tag name _ _ _ => bool_decide (name = n)
  end.

Definition has_class (c : str) (x : Node) : bool :=
  match x with
  | NavigableString _ => false
  | Tag _ classes _ _ => bool_decide (c ∈ classes)
  end.

Definition has_attr (k v : str) (x : Node) : bool :=
  match x with
  | NavigableString _ => false
  | Tag _ _ attrs _ => bool_decide (attrs !! k = Some v)
  end.

(** [tag.attrs] without the [class] attribute. *)
Definition attrs_of (x : Node) : gmap str str :=
  match x with
  | NavigableString _ => ∅
  | Tag _ _ attrs _ => attrs
  end.

(** [tag.descendants]: every node below [x], in document order. *)
Fixpoint descendants (x : Node) : list Node :=
  match x with
  | NavigableString _ => []
  | Tag _ _ _ contents =>
      (fix below (l : list Node) : list Node :=
         match l with
         | [] => []
         | c :: rest => c :: descendants c ++ below rest
         end) contents
  end.

(** [tag.find_all(...)] and [tag.find(...)] for a matcher [p]. *)
Definition find_all (p : Node -> bool) (x : Node) : list Node :=
  List.filter p (descendants x).

Definition find (p : Node -> bool) (x : Node) : option Node :=
  head (find_all p x).

(** [tag.text]: the text nodes below [x], concatenated. *)
Fixpoint get_text (x : Node) : str :=
  match x with
  | NavigableString s => s
  | Tag _ _ _ contents =>
      (fix texts (l : list Node) : str :=
         match l with
         | [] => []
         | c :: rest => get_text c ++ texts rest
         end) contents
  end.

(** The tree left after [element.decompose()] has been called on every
    node matched by [p] below [x] (lines 127-128, with [p] the tags named
    [div] or [span]): a matched node goes with everything below it. *)
Fixpoint decompose_all (p : Node -> bool) (x : Node) : Node :=
  match x with
  | NavigableString s => NavigableString s
  | Tag name classes attrs contents =>
      Tag name classes attrs
        ((fix prune (l : list Node) : list Node :=
            match l with
            | [] => []
            | c :: rest =>
                if p c then prune rest else decompose_all p c :: prune rest
            end) contents)
  end.

End Soup.

(** ** Effects: requests, sleeps, log entries and exceptions *)

Module Effects.
Import Soup.

(** The exceptions that the code distinguishes.  [RequestException] stands
    for the network-level errors of [requests] (connection errors, timeouts,
    too many redirects, ...); [HTTPError] is the subclass of it that
    [raise_for_status] raises; the other three are not
    [RequestException]s. *)
Inductive Exn : Type :=
| RequestException (detail : str)
| HTTPError (status : Z)
| KeyError (key : str)
| ValueError (detail : str)
| OtherException (detail : str).

Definition isinstance_RequestException (e : Exn) : bool :=
  match e with
  | RequestException _ | HTTPError _ => true
  | KeyError _ | ValueError _ | OtherException _ => false
  end.

(** What the code reads of a [requests.Response]. *)
Record Response : Type := { status_code : Z; text : str }.

(** What the scraper does to the outside, in the order it does it. *)
Inductive Event : Type :=
| EGet (url : str)                        (* session.get(url, ...) *)
| EWarning (attempt total : Z) (e : Exn)    (* logger.warning, line 48 *)
| ESleep (seconds : Q)                    (* time.sleep *)
| EError (e : Exn).                       (* logger.error *)

(** The outside world as the scraper sees it: how many requests it has sent,
    how many random numbers it has drawn, and the trace of its events. *)
Record World : Type :=
  { n_get : nat; n_uniform : nat; events : list Event }.

(** What the repository does not contain: the answer of the network to the
    [i]-th request (a response, or the exception that [session.get] raises),
    the [i]-th value of [random.uniform(1, 3)], the parser behind
    [BeautifulSoup(markup, 'html.parser')] (a tree, or an exception), and
    [Py_UNICODE_ISALNUM] outside ASCII. *)
Record Env : Type :=
  { http_get : nat -> str -> Exn + Response;
    uniform_1_3 : nat -> Q;
    html_parser : str -> Exn + Node;
    unicode_isalnum : N -> bool }.

Inductive Result (A : Type) : Type :=
| Ok (a : A)
| Raise (e : Exn).
Arguments Ok {A} a.
Arguments Raise {A} e.

(** A computation: it starts in a world and ends in a world, with a value
    or a raised exception. *)
Definition M (A : Type) : Type := World -> Result A * World.

Definition ret {A} (a : A) : M A := fun w => (Ok a, w).

Definition raise {A} (e : Exn) : M A := fun w => (Raise e, w).

Definition bind {A B} (m : M A) (k : A -> M B) : M B :=
  fun w =>
    match m w with
    | (Ok a, w') => k a w'
    | (Raise e, w') => (Raise e, w')
    end.

(** [try: m except C as e: h e], where [is_C] decides [isinstance(e, C)]. *)
Definition try_except {A} (m : M A) (is_C : Exn -> bool) (h : Exn -> M A)
  : M A :=
  fun w =>
    match m w with
    | (Ok a, w') => (Ok a, w')
    | (Raise e, w') => if is_C e then h e w' else (Raise e, w')
    end.

(** [except Exception]: every exception of the model is one. *)
Definition isinstance_Exception (e : Exn) : bool := true.

Definition emit (ev : Event) : M unit :=
  fun w =>
    (Ok tt, {| n_get := n_get w; n_uniform := n_uniform w;
               events := events w ++ [ev] |}).

Definition lift {A} (r : Exn + A) : M A :=
  match r with
  | inl e => raise e
  | inr a => ret a
  end.

End Effects.

Declare Scope py_scope.
Delimit Scope py_scope with py.
Notation "'let!' x ':=' m 'in' k" :=
  (Effects.bind m (fun x => k))
  (at level 10, x name, m at level 100, k at level 200) : py_scope.
Notation "m ';;' k" :=
  (Effects.bind m (fun _ => k))
  (at level 100, k at level 200, right associativity) : py_scope.

(** ** The scraper *)

Module PTTScraper.
Import Soup Effects.
Local Open Scope py_scope.

(** The configuration that [__init__] stores (lines 31-38).  The session
    with its fixed headers and the fixed cookie do not influence what the
    code does with the answers; they are part of [http_get]. *)
Record PTTScraper : Type := { max_retries : Z; retry_delay : Z }.

(** A [dict] with [str] keys and [str] values. *)
Abbreviation dict := (gmap str str).

(** [d[k]]: the value, or [KeyError]. *)
Definition getitem (d : dict) (k : str) : M str :=
  match d !! k with
  | Some v => ret v
  | None => raise (KeyError k)
  end.

(** [range(n)]. *)
Definition range (n : Z) : list Z := seqZ 0 n.

(** [l[:n]]: the first [n] elements, and for a negative [n] all but the
    last [-n]. *)
Definition slice_to {A} (l : list A) (n : Z) : list A :=
  if (0 <=? n)%Z then take (Z.to_nat n) l
  else take (length l - Z.to_nat (- n)) l.

(** The three replies of [_get_post_content] that are not page text
    (lines 118, 124 and 134). *)
Definition content_unavailable : str :=
  [0x7121; 0x6CD5; 0x7372; 0x53D6; 0x6587; 0x7AE0; 0x5167; 0x5BB9]%N.
Definition content_container_not_found : str :=
  [0x7121; 0x6CD5; 0x627E; 0x5230; 0x6587; 0x7AE0; 0x5167; 0x5BB9]%N.
Definition error_extracting_content : str :=
  [0x7372; 0x53D6; 0x6587; 0x7AE0; 0x5167; 0x5BB9; 0x6642; 0x767C; 0x751F;
   0x932F; 0x8AA4]%N.

Section Methods.

Variable env : Env.
Variable self : PTTScraper.

Definition _clean_text : str -> str := Text._clean_text (unicode_isalnum env).
Definition strip : str -> str := Text.strip.

(** [self.session.get(url, cookies=self.cookies, timeout=10)]. *)
Definition session_get (url : str) : M Response :=
  fun w =>
    (match http_get env (n_get w) url with
     | inr response => Ok response
     | inl e => Raise e
     end,
     {| n_get := S (n_get w); n_uniform := n_uniform w;
        events := events w ++ [EGet url] |}).

(** [Response.ok]: the status is neither a client nor a server error. *)
Definition ok (response : Response) : bool :=
  negb ((400 <=? status_code response)%Z && (status_code response <? 600)%Z).

(** [response.raise_for_status()] raises [HTTPError] for a status from 400
    to 599 and returns otherwise. *)
Definition raise_for_status (response : Response) : M unit :=
  if ok response then ret tt else raise (HTTPError (status_code response)).

(** [random.uniform(1, 3)]. *)
Definition random_uniform_1_3 : M Q :=
  fun w =>
    (Ok (uniform_1_3 env (n_uniform w)),
     {| n_get := n_get w; n_uniform := S (n_uniform w);
        events := events w |}).

(** [time.sleep(seconds)], which raises [ValueError] for a negative
    argument. *)
Definition time_sleep (seconds : Q) : M unit :=
  if Qle_bool 0 seconds then emit (ESleep seconds)
  else raise (ValueError (py "sleep length must be non-negative")).

(** The loop of [_make_request] (lines 42-51) over the attempts left. *)
Fixpoint _make_request_loop (url : str) (attempts : list Z)
  : M (option Response) :=
  match attempts with
  | [] => ret None
  | attempt :: rest =>
      try_except
        (let! response := session_get url in
         raise_for_status response ;;
         ret (Some response))
        isinstance_RequestException
        (fun e =>
           emit (EWarning (attempt + 1) (max_retries self) e) ;;
           (if (attempt <? max_retries self - 1)%Z
            then let! u := random_uniform_1_3 in
                 time_sleep (inject_Z (retry_delay self) + u)
            else ret tt) ;;
           _make_request_loop url rest)
  end.

(** [PTTScraper._make_request] (lines 40-52). *)
Definition _make_request (url : str) : M (option Response) :=
  _make_request_loop url (range (max_retries self)).

(** [BeautifulSoup(response.text, 'html.parser')]. *)
Definition BeautifulSoup (markup : str) : M Node :=
  lift (html_parser env markup).

Definition is_div_with_class (c : str) (x : Node) : bool :=
  name_is (py "div") x && has_class c x.

(** [PTTScraper._extract_post_info] (lines 82-111). *)
Definition _extract_post_info (post_div : Node) : M (option dict) :=
  try_except
    (match find (is_div_with_class (py "title")) post_div with
     | None => ret None
     | Some title_tag =>
         match find (name_is (py "a")) title_tag with
         | None => ret None
         | Some a =>
             let title := strip (get_text a) in
             let! href := getitem (attrs_of a) (py "href") in
             let link := py "https://www.ptt.cc" ++ href in
             let author :=
               match find (is_div_with_class (py "author")) post_div with
               | Some author_tag => strip (get_text author_tag)
               | None => py "N/A"
               end in
             let date :=
               match find (is_div_with_class (py "date")) post_div with
               | Some date_tag => strip (get_text date_tag)
               | None => py "N/A"
               end in
             let title := _clean_text title in
             let author := _clean_text author in
             let date := _clean_text date in
             ret (Some (<[py "title" := title]>
                        (<[py "link" := link]>
                         (<[py "author" := author]>
                          (<[py "date" := date]> ∅)))))
         end
     end)
    isinstance_Exception
    (fun e => emit (EError e) ;; ret None).

Definition is_div_or_span (x : Node) : bool :=
  name_is (py "div") x || name_is (py "span") x.

(** [PTTScraper._get_post_content] (lines 113-134). *)
Definition _get_post_content (url : str) : M str :=
  try_except
    (let! response := _make_request url in
     match response with
     | None => ret content_unavailable
     | Some response =>
         if negb (ok response) then ret content_unavailable
         else
           let! soup := BeautifulSoup (text response) in
           match find (has_attr (py "id") (py "main-content")) soup with
           | None => ret content_container_not_found
           | Some content_div =>
               let content_div := decompose_all is_div_or_span content_div in
               let content := strip (get_text content_div) in
               ret (_clean_text content)
           end
     end)
    isinstance_Exception
    (fun e => emit (EError e) ;; ret error_extracting_content).

(** The loop of [get_ptt_stock_posts] (lines 65-77) over the containers
    left, with the list [posts_data] built so far. *)
Fixpoint _posts_loop (post_divs : list Node) (posts_data : list dict)
  : M (list dict) :=
  match post_divs with
  | [] => ret posts_data
  | post_div :: rest =>
      let! posts_data :=
        try_except
          (let! post_info := _extract_post_info post_div in
           match post_info with
           | None => ret posts_data
           | Some post_info =>
               if bool_decide (post_info = ∅) then ret posts_data
               else
                 let! link := getitem post_info (py "link") in
                 let! content := _get_post_content link in
                 let post_info := <[py "content" := content]> post_info in
                 ret (posts_data ++ [post_info])
           end)
          isinstance_Exception
          (fun e => emit (EError e) ;; ret posts_data) in
      _posts_loop rest posts_data
  end.

(** [PTTScraper.get_ptt_stock_posts] (lines 54-80). *)
Definition get_ptt_stock_posts (url : str) (num_posts : Z) : M (list dict) :=
  try_except
    (let! response := _make_request url in
     match response with
     | None => ret []
     | Some response =>
         if negb (ok response) then ret []
         else
           let! soup := BeautifulSoup (text response) in
           _posts_loop
             (slice_to (find_all (is_div_with_class (py "r-ent")) soup)
                       num_posts)
             []
     end)
    isinstance_Exception
    (fun e => emit (EError e) ;; ret []).

End Methods.
End PTTScraper.

(** ** Vocabulary of the statements *)

Module Spec.
Import Soup Effects PTTScraper.

(** How the [try] block of [_make_request] ends for the request number [i]
    sent to [url]: with the response, or with the exception raised by
    [session.get] or by [raise_for_status]. *)
Definition attempt_result (env : Env) (i : nat) (url : str)
  : Exn + Response :=
  match http_get env i url with
  | inl e => inl e
  | inr response =>
      if ok response then inr response
      else inl (HTTPError (status_code response))
  end.

(** The attempt fails in the sense of line 47: the block raises a
    [RequestException]. *)
Definition attempt_fails (env : Env) (i : nat) (url : str) (e : Exn) : Prop :=
  attempt_result env i url = inl e /\ isinstance_RequestException e = true.

(** The length of the wait that uses the random draw number [u]:
    [retry_delay + random.uniform(1, 3)]. *)
Definition delay (env : Env) (self : PTTScraper) (u : nat) : Q :=
  inject_Z (retry_delay self) + uniform_1_3 env u.

(** The events of a failed attempt that is followed by a wait, and of one
    that is not.  [u] numbers the random draw. *)
Definition retry_round (env : Env) (self : PTTScraper) (url : str)
    (attempt : Z) (u : nat) (e : Exn) : list Event :=
  [EGet url; EWarning (attempt + 1) (max_retries self) e;
   ESleep (delay env self u)].

Definition final_round (self : PTTScraper) (url : str)
    (attempt : Z) (e : Exn) : list Event :=
  [EGet url; EWarning (attempt + 1) (max_retries self) e].

Definition is_get (ev : Event) : bool :=
  match ev with
  | EGet _ => true
  | _ => false
  end.

(** The link of a container: the first [a] below its first [div] of class
    [title], when there is one (line 85). *)
Definition title_link (post_div : Node) : option Node :=
  match find (is_div_with_class (py "title")) post_div with
  | None => None
  | Some title_tag => find (name_is (py "a")) title_tag
  end.

(** The container lacks a title element with a nested link. *)
Definition lacks_title_link (post_div : Node) : bool :=
  match title_link post_div with
  | None => true
  | Some _ => false
  end.

(** The container has a title with a link, and the link has an [href]. *)
Definition extractable (post_div : Node) : bool :=
  match title_link post_div with
  | None => false
  | Some a => bool_decide (is_Some (attrs_of a !! py "href"))
  end.

(** The text of the first [div] of class [c] below the container, stripped,
    or ["N/A"] (lines 91-95). *)
Definition field_text (c : str) (post_div : Node) : str :=
  match find (is_div_with_class c) post_div with
  | Some tag => Text.strip (get_text tag)
  | None => py "N/A"
  end.

(** The entry has the five fields of a post. *)
Definition has_five_fields (post : gmap str str) : Prop :=
  exists title link author date content : str,
    post !! py "title" = Some title /\ post !! py "link" = Some link /\
    post !! py "author" = Some author /\ post !! py "date" = Some date /\
    post !! py "content" = Some content.

(** The entry [post] is the one built from the container [post_div]. *)
Definition entry_of (env : Env) (post_div : Node) (post : gmap str str)
  : Prop :=
  exists (a : Node) (href : str),
    title_link post_div = Some a /\
    attrs_of a !! py "href" = Some href /\
    post !! py "link" = Some (py "https://www.ptt.cc" ++ href) /\
    post !! py "title"
      = Some (_clean_text env (Text.strip (get_text a))) /\
    post !! py "author"
      = Some (_clean_text env (field_text (py "author") post_div)) /\
    post !! py "date"
      = Some (_clean_text env (field_text (py "date") post_div)) /\
    is_Some (post !! py "content").

(** Every whitespace character of [s] is a U+0020 that does not follow
    another whitespace character.  [after_space] tells that the character
    before [s] is whitespace. *)
Fixpoint single_spaced (after_space : bool) (s : str) : bool :=
  match s with
  | [] => true
  | c :: rest =>
      if Text.is_space c
      then (c =? 0x20)%N && negb after_space && single_spaced true rest
      else single_spaced false rest
  end.

(** A status code of the 2xx class. *)
Definition is_2xx (status : Z) : bool :=
  ((200 <=? status) && (status <? 300))%Z.

End Spec.
Export Spec.

(** ** Concrete scrapers, networks and pages *)

Module Fixtures.
Import Soup Effects PTTScraper.

(** The scraper that [StockAnalyzer] builds (line 204): the defaults. *)
Definition default_scraper : PTTScraper :=
  {| max_retries := 3; retry_delay := 5 |}.

Definition no_retry_scraper : PTTScraper :=
  {| max_retries := 0; retry_delay := 5 |}.

Definition board_url : str := py "https://www.ptt.cc/bbs/Stock/index.html".

Definition world0 : World := {| n_get := 0; n_uniform := 0; events := [] |}.

(** A character table that knows the CJK unified ideographs only. *)
Definition cjk_isalnum (c : N) : bool := ((0x4E00 <=? c) && (c <=? 0x9FFF))%N.

Definition element (name : string) (classes : list string)
    (attrs : list (string * string)) (contents : list Node) : Node :=
  Tag (py name) (List.map py classes)
      (list_to_map (List.map (fun kv => (py kv.1, py kv.2)) attrs))
      contents.

(** A listing with two containers: a deleted post, whose title has no
    link, and a regular post. *)
Definition deleted_entry : Node :=
  element "div" ["r-ent"] []
    [element "div" ["title"] [] [NavigableString (py " (deleted) ")];
     element "div" ["meta"] []
       [element "div" ["author"] [] [NavigableString (py "-")];
        element "div" ["date"] [] [NavigableString (py " 6/01")]]].

Definition regular_entry : Node :=
  element "div" ["r-ent"] []
    [element "div" ["title"] []
       [element "a" [] [("href", "/bbs/Stock/M.1.A.html")]
          [NavigableString (py "[News]  TSMC  +3% ")]];
     element "div" ["meta"] []
       [element "div" ["author"] [] [NavigableString (py "trader")];
        element "div" ["date"] [] [NavigableString (py " 6/02")]]].

Definition listing_soup : Node :=
  element "[document]" [] []
    [element "div" ["r-list-container"; "bbs-screen"] []
       [deleted_entry; regular_entry]].

(** A post whose body, once the nested [div] and [span] are gone, is
    ["a @ b"] between newlines. *)
Definition post_content : Node :=
  element "div" ["bbs-screen"] [("id", "main-content")]
    [element "div" ["article-metaline"] []
       [element "span" ["article-meta-value"] []
          [NavigableString (py "trader")]];
     NavigableString ([0x0A] ++ py "a @ b" ++ [0x0A])%N;
     element "span" ["f2"] [] [NavigableString (py "-- sent from PTT")]].

Definition post_soup : Node :=
  element "[document]" [] [] [post_content].

(** A post whose body is made of nested elements and symbols only. *)
Definition symbols_content : Node :=
  element "div" ["bbs-screen"] [("id", "main-content")]
    [element "span" ["f2"] [] [NavigableString (py "quoted reply")];
     NavigableString (py " #@ * ")].

Definition symbols_soup : Node :=
  element "[document]" [] [] [symbols_content].

(** A page without the main-content container. *)
Definition bare_soup : Node :=
  element "[document]" [] [] [NavigableString (py "Not Found")].

Definition response_200 (markup : str) : Response :=
  {| status_code := 200; text := markup |}.

(** A network that answers every request with status 200; the markup it
    sends is named after the address, and the parser turns the markup of
    the board into [listing_soup] and any other into [post_soup]. *)
Definition env_board : Env :=
  {| http_get := fun _ url => inr (response_200 url);
     uniform_1_3 := fun _ => 2%Q;
     html_parser := fun markup =>
       inr (if bool_decide (markup = board_url) then listing_soup
            else post_soup);
     unicode_isalnum := cjk_isalnum |}.

(** The same network with a parser that yields [symbols_soup],
    [bare_soup], or an exception. *)
Definition env_symbols : Env :=
  {| http_get := fun _ url => inr (response_200 url);
     uniform_1_3 := fun _ => 2%Q;
     html_parser := fun _ => inr symbols_soup;
     unicode_isalnum := cjk_isalnum |}.

Definition env_bare : Env :=
  {| http_get := fun _ url => inr (response_200 url);
     uniform_1_3 := fun _ => 2%Q;
     html_parser := fun _ => inr bare_soup;
     unicode_isalnum := cjk_isalnum |}.

Definition env_unparsable : Env :=
  {| http_get := fun _ url => inr (response_200 url);
     uniform_1_3 := fun _ => 2%Q;
     html_parser := fun _ => inl (OtherException (py "markup rejected"));
     unicode_isalnum := cjk_isalnum |}.

(** A server that answers every request with status 500. *)
Definition env_down : Env :=
  {| http_get := fun _ _ => inr {| status_code := 500; text := [] |};
     uniform_1_3 := fun i => (1 + inject_Z (Z.of_nat i))%Q;
     html_parser := fun _ => inr post_soup;
     unicode_isalnum := cjk_isalnum |}.

(** A network on which the first request times out, the second is
    answered with status 503 and the later ones with status 200. *)
Definition env_flaky : Env :=
  {| http_get := fun i url =>
       match i with
       | 0 => inl (RequestException (py "Read timed out."))
       | 1 => inr {| status_code := 503; text := [] |}
       | _ => inr (response_200 url)
       end;
     uniform_1_3 := fun i => (1 + inject_Z (Z.of_nat i))%Q;
     html_parser := fun _ => inr post_soup;
     unicode_isalnum := cjk_isalnum |}.

(** A server that answers every request with status 304 (Not Modified),
    which [requests] hands over as it is. *)
Definition response_304 : Response := {| status_code := 304; text := [] |}.

Definition env_not_modified : Env :=
  {| http_get := fun _ _ => inr response_304;
     uniform_1_3 := fun _ => 2%Q;
     html_parser := fun _ => inr bare_soup;
     unicode_isalnum := cjk_isalnum |}.

End Fixtures.

(** ** Counting what a computation does *)

Module Measures.
Import Effects.

Definition is_sleep (ev : Event) : bool :=
  match ev with
  | ESleep _ => true
  | _ => false
  end.

Definition is_warning (ev : Event) : bool :=
  match ev with
  | EWarning _ _ _ => true
  | _ => false
  end.

(** The number of events of a trace that satisfy [p]. *)
Definition count_events (p : Event -> bool) (evs : list Event) : nat :=
  length (List.filter p evs).

(** Whatever the world [m] starts in, [m] only appends to the trace, and it
    appends at most [k] events that satisfy [p]. *)
Definition adds_at_most {A} (p : Event -> bool) (k : nat) (m : M A) : Prop :=
  forall w, exists new,
    events (m w).2 = events w ++ new /\ count_events p new <= k.

(** A character that is not whitespace. *)
Definition visible (c : N) : bool := negb (Text.is_space c).

End Measures.
Export Measures.

(** ** Operations on strings *)

Module PyStr.
Local Open Scope N_scope.

(** The truth value of a [str]: false for the empty string only. *)
Definition truthy (s : str) : bool :=
  match s with
  | [] => false
  | _ :: _ => true
  end.

(** [s.startswith(prefix)]. *)
Fixpoint startswith (s prefix : str) : bool :=
  match prefix, s with
  | [], _ => true
  | _ :: _, [] => false
  | p :: prefix', c :: s' => (p =? c) && startswith s' prefix'
  end.

(** [needle in hay] for two strings. *)
Fixpoint contains (hay needle : str) : bool :=
  startswith hay needle
  || match hay with
     | [] => false
     | _ :: rest => contains rest needle
     end.

(** [s.split(sep)] for a separator of one character. *)
Fixpoint split (s : str) (sep : N) : list str :=
  match s with
  | [] => [[]]
  | c :: rest =>
      if c =? sep then [] :: split rest sep
      else match split rest sep with
           | [] => [[c]]
           | first :: others => (c :: first) :: others
           end
  end.

(** [s.replace(old, new)] for a non-empty [old]: scanning from the left,
    every occurrence of [old] that does not overlap the one before it is
    replaced.  [skip] counts the characters of the occurrence being
    replaced that are still to be passed over. *)
Fixpoint replace_from (old new : str) (skip : nat) (s : str) : str :=
  match s with
  | [] => []
  | c :: rest =>
      match skip with
      | S k => replace_from old new k rest
      | O =>
          if startswith s old
          then new ++ replace_from old new (length old - 1) rest
          else c :: replace_from old new 0 rest
      end
  end.

(** [s.replace(old, new)]; for an empty [old], [new] is put before every
    character and at the end. *)
Definition replace (s old new : str) : str :=
  match old with
  | [] => new ++ flat_map (fun c => c :: new) s
  | _ :: _ => replace_from old new 0 s
  end.

(** [Py_UNICODE_ISDIGIT] on ASCII, and [str.isdigit] given the table
    [unicode_isdigit] for the code points from 128 on: the string is not
    empty and all its characters are digits. *)
Definition ascii_isdigit (c : N) : bool := (0x30 <=? c) && (c <=? 0x39).

Definition isdigit_char (unicode_isdigit : N -> bool) (c : N) : bool :=
  if c <? 128 then ascii_isdigit c else unicode_isdigit c.

Definition isdigit (unicode_isdigit : N -> bool) (s : str) : bool :=
  truthy s && forallb (isdigit_char unicode_isdigit) s.

End PyStr.

(** ** An insertion-ordered dictionary *)

Module ODict.

(** A [dict] whose order of iteration matters: the pairs in the order of
    the first insertion of their keys, each key once. *)
Abbreviation odict := (list (str * str)).

(** [d[k] = v]: a key already present keeps its place. *)
Fixpoint setitem (d : odict) (k v : str) : odict :=
  match d with
  | [] => [(k, v)]
  | (k', v') :: rest =>
      if bool_decide (k' = k) then (k, v) :: rest
      else (k', v') :: setitem rest k v
  end.

(** [d.get(k)]. *)
Fixpoint get (d : odict) (k : str) : option str :=
  match d with
  | [] => None
  | (k', v') :: rest => if bool_decide (k' = k) then Some v' else get rest k
  end.

End ODict.

(** ** The news feed *)

Module Feed.
Import Effects PTTScraper.
Local Open Scope py_scope.

(** An entry of a parsed feed, read by attribute as the author's code
    reads it: the keys [title], [summary], [link] and [published] are plain
    keys of [feedparser]'s dictionary. *)
Abbreviation entry := (gmap str str).

(** [AttributeError], which is not a [RequestException]. *)
Definition AttributeError (name : str) : Exn :=
  OtherException (py "AttributeError: " ++ name).

(** [entry.name]. *)
Definition getattr (e : entry) (name : str) : M str :=
  match e !! name with
  | Some v => ret v
  | None => raise (AttributeError name)
  end.

(** [hasattr(entry, name)]. *)
Definition hasattr (e : entry) (name : str) : bool :=
  bool_decide (is_Some (e !! name)).

(** The loop of [get_rss_news] (lines 153-159). *)
Fixpoint _news_loop (entries : list entry) (news_items : list dict)
  : M (list dict) :=
  match entries with
  | [] => ret news_items
  | entry :: rest =>
      let! title := getattr entry (py "title") in
      let! summary :=
        (if hasattr entry (py "summary") then getattr entry (py "summary")
         else ret []) in
      let! link := getattr entry (py "link") in
      let! published :=
        (if hasattr entry (py "published")
         then getattr entry (py "published")
         else ret []) in
      _news_loop rest
        (news_items ++
         [<[py "title" := title]>
          (<[py "summary" := summary]>
           (<[py "link" := link]>
            (<[py "published" := published]> ∅)))])
  end.

(** [get_rss_news] (lines 145-163).  [parsed] is what
    [feedparser.parse(url)] gives for the fixed address of line 149: the
    entries of the feed, or an exception. *)
Definition get_rss_news (parsed : Exn + list entry) (num_items : Z)
  : M (list dict) :=
  try_except
    (let! entries := lift parsed in
     _news_loop (slice_to entries num_items) [])
    isinstance_Exception
    (fun e => emit (EError e) ;; ret []).

End Feed.

(** ** The list of listed companies *)

Module Twse.
Import Soup Effects PTTScraper PyStr ODict.
Local Open Scope py_scope.

Definition twse_url : str :=
  py "https://isin.twse.com.tw/isin/class_main.jsp?owncode=&stockname=&isincode=&market=1&issuetype=1&industry_code=&Page=1&chklike=Y".

(** [IndexError], which is not a [RequestException]. *)
Definition IndexError : Exn := OtherException (py "IndexError").

(** [l[i]] for [i >= 0]. *)
Definition getindex {A} (l : list A) (i : nat) : M A :=
  match l !! i with
  | Some x => ret x
  | None => raise IndexError
  end.

Section Methods.

Variable env : Env.

(** [str.isdigit] outside ASCII is a table of the interpreter. *)
Variable unicode_isdigit : N -> bool.

(** [requests.get(url)]: one request, answered by the network like those
    of the scraper.  The text of the response is the one decoded with the
    encoding set on line 170. *)
Definition requests_get (url : str) : M Response :=
  fun w =>
    (match http_get env (n_get w) url with
     | inr response => Ok response
     | inl e => Raise e
     end,
     {| n_get := S (n_get w); n_uniform := n_uniform w;
        events := events w ++ [EGet url] |}).

(** The loop of [fetch_twse_stock_list] (lines 174-180). *)
Fixpoint _rows_loop (rows : list Node) (stock_dict : odict) : M odict :=
  match rows with
  | [] => ret stock_dict
  | row :: rest =>
      let cols := find_all (name_is (py "td")) row in
      let! stock_dict :=
        (if (4 <=? length cols)%nat
         then
           let! col2 := getindex cols 2 in
           let code := Text.strip (get_text col2) in
           let! col3 := getindex cols 3 in
           let name := Text.strip (get_text col3) in
           if truthy code && truthy name && isdigit unicode_isdigit code
           then ret (setitem stock_dict name code)
           else ret stock_dict
         else ret stock_dict) in
      _rows_loop rest stock_dict
  end.

(** [fetch_twse_stock_list] (lines 165-185). *)
Definition fetch_twse_stock_list : M odict :=
  try_except
    (let! response := requests_get twse_url in
     let! soup := BeautifulSoup env (text response) in
     _rows_loop (drop 1 (find_all (name_is (py "tr")) soup)) [])
    isinstance_Exception
    (fun e => emit (EError e) ;; ret []).

End Methods.
End Twse.

(** ** The analyzer *)

Module StockAnalyzer.
Import Effects PTTScraper PyStr ODict.
Local Open Scope py_scope.

(** The prompt of [ask_gemini_for_term] (lines 251-258) up to the term,
    and after it. *)
Definition term_prompt_head : str :=
  [0x89D2; 0x8272; 0xFF1A; 0x4F60; 0x662F; 0x4E00; 0x4F4D; 0x7CBE; 0x901A;
   0x91D1; 0x878D; 0x7684; 0x41; 0x49; 0x52A9; 0x7406; 0x3002; 0xA; 0x4EFB;
   0x52D9; 0xFF1A; 0x8ACB; 0x7528; 0x7E41; 0x9AD4; 0x4E2D; 0x6587; 0x5411;
   0x4E00; 0x4F4D; 0x91D1; 0x878D; 0x65B0; 0x624B; 0x89E3; 0x91CB; 0x300C]%N.

(** (continued) *)
Definition term_prompt_tail : str :=
  [0x300D; 0x662F; 0x4EC0; 0x9EBC; 0x3002; 0xA; 0x8ACB; 0x76E1; 0x91CF;
   0x4F7F; 0x7528; 0x751F; 0x6D3B; 0x5316; 0x7684; 0x6BD4; 0x55BB; 0xFF0C;
   0x4E26; 0x8AAA; 0x660E; 0x5176; 0x91CD; 0x8981; 0x6027; 0x3002; 0x907F;
   0x514D; 0x63D0; 0x4F9B; 0x4EFB; 0x4F55; 0x6295; 0x8CC7; 0x5EFA; 0x8B70;
   0x3002; 0xA; 0xA; 0x8ACB; 0x56B4; 0x683C; 0x6309; 0x7167; 0x4EE5;
   0x4E0B; 0x683C; 0x5F0F; 0x8F38; 0x51FA; 0xFF08; 0x4E0D; 0x8981; 0x6DFB;
   0x52A0; 0x4EFB; 0x4F55; 0x5176; 0x4ED6; 0x5167; 0x5BB9; 0xFF09; 0xFF1A;
   0xA; 0x540D; 0x8A5E; 0x89E3; 0x91CB; 0xFF1A; 0x5B; 0x6B64; 0x8655;
   0x586B; 0x5BEB; 0x540D; 0x8A5E; 0x89E3; 0x91CB; 0x5D; 0xA; 0x91CD;
   0x8981; 0x6027; 0xFF1A; 0x5B; 0x6B64; 0x8655; 0x586B; 0x5BEB; 0x91CD;
   0x8981; 0x6027; 0x8AAA; 0x660E; 0x5D; 0xA; 0x751F; 0x6D3B; 0x6BD4;
   0x55BB; 0xFF1A; 0x5B; 0x6B64; 0x8655; 0x586B; 0x5BEB; 0x751F; 0x6D3B;
   0x5316; 0x6BD4; 0x55BB; 0x5D]%N.

(** The prompt of [analyze_news_with_gemini] (lines 280-290) up to the
    title, between the title and the summary, and after the summary. *)
Definition news_prompt_head : str :=
  [0x89D2; 0x8272; 0xFF1A; 0x4F60; 0x662F; 0x4E00; 0x4F4D; 0x8CC7; 0x6DF1;
   0x8CA1; 0x7D93; 0x8A18; 0x8005; 0xFF0C; 0x4E5F; 0x662F; 0x4E00; 0x4F4D;
   0x64C5; 0x9577; 0x5411; 0x65B0; 0x624B; 0x89E3; 0x91CB; 0x80A1; 0x5E02;
   0x7684; 0x5C0E; 0x5E2B; 0x3002; 0xA; 0x4EFB; 0x52D9; 0xFF1A; 0x8ACB;
   0x95B1; 0x8B80; 0x4EE5; 0x4E0B; 0x8CA1; 0x7D93; 0x65B0; 0x805E; 0x6A19;
   0x984C; 0x8207; 0x6458; 0x8981; 0xFF0C; 0x4E26; 0x5B8C; 0x6210; 0x4E0B;
   0x5217; 0x4EFB; 0x52D9; 0xFF1A; 0xA; 0x31; 0x2E; 0x20; 0x5224; 0x65B7;
   0x6B64; 0x65B0; 0x805E; 0x5C0D; 0x76F8; 0x95DC; 0x80A1; 0x7968; 0x7684;
   0x6F5B; 0x5728; 0x5F71; 0x97FF; 0x662F; 0x504F; 0x300C; 0x5229; 0x591A;
   0x300D; 0x3001; 0x300C; 0x5229; 0x7A7A; 0x300D; 0xFF0C; 0x9084; 0x662F;
   0x300C; 0x4E2D; 0x6027; 0x300D; 0x3002; 0xA; 0x32; 0x2E; 0x20; 0x91DD;
   0x5C0D; 0x9019; 0x5247; 0x65B0; 0x805E; 0xFF0C; 0x64B0; 0x5BEB; 0x4E00;
   0x6BB5; 0x7D04; 0x35; 0x30; 0x2D; 0x31; 0x30; 0x30; 0x5B57; 0x7684;
   0x300C; 0x65B0; 0x624B; 0x770B; 0x6CD5; 0x89E3; 0x91CB; 0x300D; 0xFF0C;
   0x8AAA; 0x660E; 0x9019; 0x5247; 0x65B0; 0x805E; 0x70BA; 0x4EC0; 0x9EBC;
   0x88AB; 0x8A8D; 0x70BA; 0x662F; 0x5229; 0x591A; 0x2F; 0x5229; 0x7A7A;
   0x2F; 0x4E2D; 0x6027; 0xFF0C; 0x4EE5; 0x53CA; 0x5B83; 0x901A; 0x5E38;
   0x53EF; 0x80FD; 0x5C0D; 0x80A1; 0x50F9; 0x7522; 0x751F; 0x4EC0; 0x9EBC;
   0x6A23; 0x7684; 0x521D; 0x6B65; 0x5F71; 0x97FF; 0x3002; 0x8ACB; 0x907F;
   0x514D; 0x4F7F; 0x7528; 0x904E; 0x65BC; 0x5C08; 0x696D; 0x7684; 0x8853;
   0x8A9E; 0xFF0C; 0x4E26; 0x5F37; 0x8ABF; 0x9019; 0x4E0D; 0x662F; 0x6295;
   0x8CC7; 0x5EFA; 0x8B70; 0x3002; 0xA; 0xA; 0x65B0; 0x805E; 0x6A19;
   0x984C; 0xFF1A]%N.

(** (continued) *)
Definition news_prompt_middle : str :=
  [0xA; 0x65B0; 0x805E; 0x6458; 0x8981; 0xFF1A]%N.

(** (continued) *)
Definition news_prompt_tail : str :=
  [0xA; 0xA; 0x8ACB; 0x56B4; 0x683C; 0x6309; 0x7167; 0x4EE5; 0x4E0B;
   0x683C; 0x5F0F; 0x8F38; 0x51FA; 0xFF08; 0x4E0D; 0x8981; 0x6DFB; 0x52A0;
   0x4EFB; 0x4F55; 0x5176; 0x4ED6; 0x5167; 0x5BB9; 0xFF09; 0xFF1A; 0xA;
   0x60C5; 0x611F; 0x5224; 0x65B7; 0xFF1A; 0x5B; 0x5229; 0x591A; 0x2F;
   0x5229; 0x7A7A; 0x2F; 0x4E2D; 0x6027; 0x5D; 0xA; 0x65B0; 0x624B; 0x770B;
   0x6CD5; 0xFF1A; 0x5B; 0x6B64; 0x8655; 0x586B; 0x5BEB; 0x65B0; 0x624B;
   0x770B; 0x6CD5; 0x89E3; 0x91CB; 0x5D]%N.

(** A label of the reply (line 266). *)
Definition label_definition : str :=
  [0x540D; 0x8A5E; 0x89E3; 0x91CB; 0xFF1A]%N.

(** A label of the reply (line 268). *)
Definition label_importance : str :=
  [0x91CD; 0x8981; 0x6027; 0xFF1A]%N.

(** A label of the reply (line 270). *)
Definition label_analogy : str :=
  [0x751F; 0x6D3B; 0x6BD4; 0x55BB; 0xFF1A]%N.

(** A label of the reply (line 298). *)
Definition label_sentiment : str :=
  [0x60C5; 0x611F; 0x5224; 0x65B7; 0xFF1A]%N.

(** A label of the reply (line 300). *)
Definition label_novice : str :=
  [0x65B0; 0x624B; 0x770B; 0x6CD5; 0xFF1A]%N.

(** The message of line 276 up to the term, and between the term and the
    exception. *)
Definition term_error_head : str :=
  [0x47; 0x65; 0x6D; 0x69; 0x6E; 0x69; 0x20; 0x89E3; 0x91CB; 0x300C]%N.

(** (continued) *)
Definition term_error_middle : str :=
  [0x300D; 0x6642; 0x767C; 0x751F; 0x932F; 0x8AA4; 0x3A; 0x20]%N.

(** The message of line 306 up to the exception. *)
Definition news_error_head : str :=
  [0x47; 0x65; 0x6D; 0x69; 0x6E; 0x69; 0x20; 0x5206; 0x6790; 0x65B0;
   0x805E; 0x6642; 0x767C; 0x751F; 0x932F; 0x8AA4; 0x3A; 0x20]%N.

Section Methods.

(** [str.lower], a function of the interpreter's character tables. *)
Variable lower : str -> str.

(** [self.model.generate_content(prompt).text]: the text of the reply, or
    the exception raised on the way to it. *)
Variable generate_text : str -> Exn + str.

(** [str(e)] for an exception. *)
Variable exn_str : Exn -> str.

(** The loop of [search_stocks] (lines 214-216) over the items of
    [self.tw_stocks]. *)
Fixpoint _search_loop (query : str) (items : odict)
    (results : list (str * str)) : list (str * str) :=
  match items with
  | [] => results
  | (name, code) :: rest =>
      _search_loop query rest
        (if contains (lower name) (lower query) || contains code query
         then results ++ [(name, code)]
         else results)
  end.

(** [StockAnalyzer.search_stocks] (lines 207-217). *)
Definition search_stocks (tw_stocks : odict) (query : str)
  : list (str * str) :=
  if negb (truthy query) then []
  else _search_loop query tw_stocks [].

(** The loop of [ask_gemini_for_term] (lines 265-271). *)
Fixpoint _term_lines (lines : list str) (analysis_result : dict) : dict :=
  match lines with
  | [] => analysis_result
  | line :: rest =>
      _term_lines rest
        (if startswith line label_definition
         then <[py "definition" :=
                  Text.strip (replace line label_definition [])]>
                analysis_result
         else if startswith line label_importance
         then <[py "importance" :=
                  Text.strip (replace line label_importance [])]>
                analysis_result
         else if startswith line label_analogy
         then <[py "analogy" :=
                  Text.strip (replace line label_analogy [])]>
                analysis_result
         else analysis_result)
  end.

(** [StockAnalyzer.ask_gemini_for_term] (lines 249-276).  The traceback
    that line 275 prints is not part of the trace. *)
Definition ask_gemini_for_term (term : str) : M dict :=
  let prompt := term_prompt_head ++ term ++ term_prompt_tail in
  try_except
    (let! response_text := lift (generate_text prompt) in
     let lines := split response_text 0x0A in
     ret (_term_lines lines ∅))
    isinstance_Exception
    (fun e =>
       emit (EError e) ;;
       ret {[ py "error" :=
                term_error_head ++ term ++ term_error_middle ++ exn_str e ]}).

(** The loop of [analyze_news_with_gemini] (lines 297-301). *)
Fixpoint _news_lines (lines : list str) (analysis_result : dict) : dict :=
  match lines with
  | [] => analysis_result
  | line :: rest =>
      _news_lines rest
        (if startswith line label_sentiment
         then <[py "sentiment" :=
                  Text.strip (replace line label_sentiment [])]>
                analysis_result
         else if startswith line label_novice
         then <[py "novice_explanation" :=
                  Text.strip (replace line label_novice [])]>
                analysis_result
         else analysis_result)
  end.

(** [StockAnalyzer.analyze_news_with_gemini] (lines 278-306). *)
Definition analyze_news_with_gemini (title summary : str) : M dict :=
  let prompt :=
    news_prompt_head ++ title ++ news_prompt_middle ++ summary
    ++ news_prompt_tail in
  try_except
    (let! response_text := lift (generate_text prompt) in
     let lines := split response_text 0x0A in
     ret (_news_lines lines ∅))
    isinstance_Exception
    (fun e =>
       emit (EError e) ;;
       ret {[ py "error" := news_error_head ++ exn_str e ]}).

End Methods.
End StockAnalyzer.

(** ** Vocabulary for the feed, the company list and the analyzer *)

Module Spec2.
Import Soup Effects PTTScraper PyStr ODict Feed Twse StockAnalyzer.

(** The entry of the feed has the two attributes that [get_rss_news] reads
    without asking. *)
Definition well_formed (e : entry) : bool :=
  hasattr e (py "title") && hasattr e (py "link").

(** The attribute that [get_rss_news] misses first in an entry that is not
    well-formed. *)
Definition missing_attribute (e : entry) : str :=
  if hasattr e (py "title") then py "link" else py "title".

(** The item built from an entry: its four attributes, the empty string
    standing for an absent one. *)
Definition news_item (e : entry) : gmap str str :=
  <[py "title" := default [] (e !! py "title")]>
  (<[py "summary" := default [] (e !! py "summary")]>
   (<[py "link" := default [] (e !! py "link")]>
    (<[py "published" := default [] (e !! py "published")]> ∅))).

(** The item has the four fields of a piece of news. *)
Definition has_four_fields (item : gmap str str) : Prop :=
  exists title summary link published : str,
    item !! py "title" = Some title /\ item !! py "summary" = Some summary /\
    item !! py "link" = Some link /\ item !! py "published" = Some published.

(** The company that a row of the table stands for, if it stands for one:
    the row has at least four cells, and the texts of the third and of the
    fourth, stripped, are a code made of digits and a non-empty name. *)
Definition row_company (unicode_isdigit : N -> bool) (row : Node)
  : option (str * str) :=
  let cols := find_all (name_is (py "td")) row in
  match cols !! 2%nat, cols !! 3%nat with
  | Some col2, Some col3 =>
      let code := Text.strip (get_text col2) in
      let name := Text.strip (get_text col3) in
      if truthy code && truthy name && isdigit unicode_isdigit code
      then Some (name, code)
      else None
  | _, _ => None
  end.

(** The companies of the rows of a page but the first, in the order of the
    rows. *)
Definition page_companies (unicode_isdigit : N -> bool) (soup : Node)
  : list (str * str) :=
  omap (row_company unicode_isdigit)
       (drop 1 (find_all (name_is (py "tr")) soup)).

(** The dictionary after the pairs have been stored in it one after the
    other. *)
Definition collect (pairs : list (str * str)) (d : odict) : odict :=
  fold_left (fun d item => setitem d item.1 item.2) pairs d.

(** A pair of the company list as the code leaves it: a stripped, non-empty
    name and a stripped, non-empty code made of digits. *)
Definition company_ok (unicode_isdigit : N -> bool) (item : str * str)
  : Prop :=
  item.1 <> [] /\ Text.strip item.1 = item.1 /\
  item.2 <> [] /\ Text.strip item.2 = item.2 /\
  forallb (isdigit_char unicode_isdigit) item.2 = true.

(** The query matches the company (line 215). *)
Definition matches (lower : str -> str) (query : str) (item : str * str)
  : bool :=
  contains (lower item.1) (lower query) || contains item.2 query.

(** What the reply says under a label: the last line that starts with the
    label, with every occurrence of the label deleted, stripped. *)
Definition labelled (label : str) (lines : list str) : option str :=
  (fun line => Text.strip (replace line label []))
    <$> last (List.filter (fun line => startswith line label) lines).

End Spec2.
Export Spec2.

(** ** More scrapers and pages *)

Module MoreFixtures.
Import Soup Effects PTTScraper Fixtures.

(** A scraper whose waits would be of negative length. *)
Definition negative_delay_scraper : PTTScraper :=
  {| max_retries := 3; retry_delay := -10 |}.

(** A network on which [session.get] raises an exception that is not a
    [RequestException]. *)
Definition env_broken : Env :=
  {| http_get := fun _ _ => inl (OtherException (py "unexpected"));
     uniform_1_3 := fun _ => 2%Q;
     html_parser := fun _ => inr post_soup;
     unicode_isalnum := cjk_isalnum |}.

(** A container whose link has no [href], and one without the author and
    date elements. *)
Definition anchorless_entry : Node :=
  element "div" ["r-ent"] []
    [element "div" ["title"] []
       [element "a" [] [] [NavigableString (py "no address")]]].

Definition anonymous_entry : Node :=
  element "div" ["r-ent"] []
    [element "div" ["title"] []
       [element "a" [] [("href", "/bbs/Stock/M.2.A.html")]
          [NavigableString (py "Re: [News] TSMC")]]].

(** Three entries of a feed: a complete one, one with title and link
    only, and one without title. *)
Definition entry_full : gmap str str :=
  list_to_map
    [(py "title", py "TAIEX closes higher");
     (py "summary", py "The index gained 1%.");
     (py "link", py "https://tw.stock.yahoo.com/news/1");
     (py "published", py "Mon, 02 Jun 2025 06:00:00 GMT")].

Definition entry_bare : gmap str str :=
  list_to_map
    [(py "title", py "TSMC at record");
     (py "link", py "https://tw.stock.yahoo.com/news/2")].

Definition entry_untitled : gmap str str :=
  list_to_map [(py "link", py "https://tw.stock.yahoo.com/news/3")].

(** A page with a table of five rows: the heading, two companies, a row
    whose code is not a number, a row of two cells, and a second row for
    the first company. *)
Definition cell (s : string) : Node :=
  element "td" [] [] [NavigableString (py s)].

Definition table_row (cells : list string) : Node :=
  element "tr" [] [] (List.map cell cells).

Definition twse_soup : Node :=
  element "[document]" [] []
    [element "table" ["h4"] []
       [table_row ["page"; "isin"; "code"; "name"; "market"];
        table_row ["1"; "TW0002330008"; " 2330 "; " TSMC"; "listed"];
        table_row ["2"; "TW0002317005"; "2317"; "Hon Hai"; "listed"];
        table_row ["3"; "TW00000000A1"; "23A7"; "Warrant"; "listed"];
        table_row ["4"; "TW0000000000"];
        table_row ["5"; "TW0002330008"; "2330"; "TSMC"; "listed"]]].

(** The network that answers every request with status 404 and a body
    that the parser reads as [twse_soup]. *)
Definition env_twse : Env :=
  {| http_get := fun _ _ => inr {| status_code := 404; text := py "table" |};
     uniform_1_3 := fun _ => 2%Q;
     html_parser := fun _ => inr twse_soup;
     unicode_isalnum := cjk_isalnum |}.

(** Character tables that know ASCII only. *)
Definition ascii_only_isdigit (c : N) : bool := false.

Definition ascii_lower (s : str) : str :=
  List.map (fun c => if ((0x41 <=? c) && (c <=? 0x5A))%N then (c + 32)%N
                     else c) s.

Definition stocks : list (str * str) :=
  [(py "TSMC", py "2330"); (py "Hon Hai", py "2317")].

(** A model that answers in the format asked for, one that answers
    something else, and one whose call raises. *)
Definition reply_definition : str := py " Earnings per share. ".
Definition reply_importance : str := py "It relates profit to one share.".
Definition reply_analogy : str := py "A slice of the pie.".

Definition model_in_format (prompt : str) : Exn + str :=
  inr (StockAnalyzer.label_definition ++ reply_definition ++ [0x0A%N]
       ++ StockAnalyzer.label_importance ++ reply_importance ++ [0x0A%N]
       ++ StockAnalyzer.label_analogy ++ reply_analogy).

Definition model_off_format (prompt : str) : Exn + str :=
  inr (py "Sorry, I cannot help with that.").

Definition model_down (prompt : str) : Exn + str :=
  inl (OtherException (py "503 service unavailable")).

Definition exn_detail (e : Exn) : str :=
  match e with
  | RequestException detail | ValueError detail | OtherException detail =>
      detail
  | HTTPError _ => py "HTTPError"
  | KeyError key => key
  end.

End MoreFixtures.

(** * Properties *)

(** ** The sanitizer *)

Section SanitizerFacts.
Import Text.
Local Open Scope N_scope.

Variable ua : N -> bool.

Lemma is_space_allowed c : is_space c = true -> allowed ua c = true.
Proof.
  intros Hc. unfold allowed. rewrite Hc.
  by rewrite orb_true_r.
Qed.

Lemma lstrip_Forall (P : N -> Prop) s : Forall P s -> Forall P (lstrip s).
Proof.
  induction 1 as [|c r Hc Hr IH]; simpl; [constructor|].
  destruct (is_space c); [exact IH | by constructor].
Qed.

Lemma rstrip_Forall (P : N -> Prop) s : Forall P s -> Forall P (rstrip s).
Proof.
  induction 1 as [|c r Hc Hr IH]; simpl; [constructor|].
  destruct (rstrip r) as [|d k].
  - destruct (is_space c); repeat constructor; done.
  - by constructor.
Qed.

Lemma strip_Forall (P : N -> Prop) s : Forall P s -> Forall P (strip s).
Proof. intros H. by apply rstrip_Forall, lstrip_Forall. Qed.

Lemma lstrip_head s c : head (lstrip s) = Some c -> is_space c = false.
Proof.
  induction s as [|d r IH]; simpl; [done|].
  destruct (is_space d) eqn:Hd; [exact IH|].
  simpl. by intros [= <-].
Qed.

Lemma rstrip_head s c :
  head s = Some c -> is_space c = false -> head (rstrip s) = Some c.
Proof.
  destruct s as [|d r]; simpl; [done|].
  intros [= ->] Hc. rewrite Hc. by destruct (rstrip r).
Qed.

Lemma rstrip_nil_head s c : rstrip s = [] -> head s = Some c -> is_space c = true.
Proof.
  destruct s as [|d r]; simpl; [done|].
  intros H [= ->]. destruct (rstrip r); [|done].
  by destruct (is_space c).
Qed.

Lemma rstrip_last s c : last (rstrip s) = Some c -> is_space c = false.
Proof.
  induction s as [|d r IH]; simpl; [done|].
  destruct (rstrip r) as [|e k] eqn:Hr.
  - destruct (is_space d) eqn:Hd; simpl; [done|]. by intros [= <-].
  - rewrite last_cons. destruct (last (e :: k)) eqn:Hl.
    + intros [= <-]. by apply IH.
    + by apply last_None in Hl.
Qed.

(** The result of [strip] neither begins nor ends with whitespace. *)
Lemma strip_head s c : head (strip s) = Some c -> is_space c = false.
Proof.
  unfold strip. intros H.
  destruct (lstrip s) as [|d r] eqn:Hs; [done|].
  pose proof (lstrip_head s d) as Hd. rewrite Hs in Hd.
  specialize (Hd eq_refl).
  rewrite (rstrip_head (d :: r) d) in H by done.
  by injection H as <-.
Qed.

Lemma strip_last s c : last (strip s) = Some c -> is_space c = false.
Proof. apply rstrip_last. Qed.

Lemma lstrip_all_space s : Forall (fun c => is_space c = true) s -> lstrip s = [].
Proof.
  induction 1 as [|c r Hc Hr IH]; simpl; [done|]. by rewrite Hc.
Qed.

Lemma strip_all_space s : Forall (fun c => is_space c = true) s -> strip s = [].
Proof. intros H. unfold strip. by rewrite lstrip_all_space. Qed.

(** A string without leading or trailing whitespace is left as it is. *)
Lemma lstrip_id s :
  (forall c, head s = Some c -> is_space c = false) -> lstrip s = s.
Proof.
  destruct s as [|c r]; simpl; [done|]. intros H. by rewrite (H c).
Qed.

Lemma rstrip_id s :
  (forall c, last s = Some c -> is_space c = false) -> rstrip s = s.
Proof.
  induction s as [|c r IH]; simpl; [done|]. intros H.
  destruct r as [|d k].
  - simpl. by rewrite (H c).
  - rewrite IH; [done|]. intros e He. apply H. by rewrite last_cons, He.
Qed.

(** After the first substitution the only whitespace is U+0020. *)
Lemma sub_ws_from_space b s :
  Forall (fun c => is_space c = true -> c = 0x20) (sub_ws_from b s).
Proof.
  revert b. induction s as [|c r IH]; intros b; simpl; [constructor|].
  destruct (is_space c) eqn:Hc.
  - destruct b; [apply IH|]. constructor; [done | apply IH].
  - constructor; [congruence | apply IH].
Qed.

Lemma sub_disallowed_allowed s :
  Forall (fun c => allowed ua c = true) (sub_disallowed ua s).
Proof.
  unfold sub_disallowed. apply List.Forall_forall.
  intros c Hc. by apply List.filter_In in Hc as [_ Hc].
Qed.

Lemma sub_disallowed_Forall (P : N -> Prop) s :
  Forall P s -> Forall P (sub_disallowed ua s).
Proof.
  unfold sub_disallowed. induction 1 as [|c r Hc Hr IH]; simpl; [constructor|].
  destruct (allowed ua c); [by constructor | done].
Qed.

(** What [_clean_text] returns contains allowed characters only, and its
    only whitespace is U+0020. *)
Lemma clean_text_chars x :
  Forall (fun c => allowed ua c = true /\ (is_space c = true -> c = 0x20))
         (_clean_text ua x).
Proof.
  unfold _clean_text. apply strip_Forall.
  apply Forall_and. split.
  - apply sub_disallowed_allowed.
  - apply sub_disallowed_Forall, sub_ws_from_space.
Qed.

(** Text made of whitespace and of characters outside the class is
    sanitized to the empty string. *)
Lemma sub_ws_from_strippable b s :
  Forall (fun c => is_space c = true \/ allowed ua c = false) s ->
  Forall (fun c => c = 0x20 \/ allowed ua c = false) (sub_ws_from b s).
Proof.
  intros H. revert b. induction H as [|c r Hc Hr IH]; intros b; simpl.
  { constructor. }
  destruct (is_space c) eqn:Hs.
  - destruct b; [apply IH|]. constructor; [by left | apply IH].
  - constructor; [|apply IH]. destruct Hc; [congruence | by right].
Qed.

Lemma sub_disallowed_strippable s :
  Forall (fun c => c = 0x20 \/ allowed ua c = false) s ->
  Forall (fun c => is_space c = true) (sub_disallowed ua s).
Proof.
  unfold sub_disallowed. induction 1 as [|c r Hc Hr IH]; simpl; [constructor|].
  destruct (allowed ua c) eqn:Ha; [|done].
  constructor; [|done]. destruct Hc as [-> | Hc]; [done | congruence].
Qed.

Lemma clean_text_strippable s :
  Forall (fun c => is_space c = true \/ allowed ua c = false) s ->
  _clean_text ua s = [].
Proof.
  intros H. unfold _clean_text. apply strip_all_space.
  by apply sub_disallowed_strippable, sub_ws_from_strippable.
Qed.

(** *** Applying the sanitizer twice *)

Lemma sub_ws_from_Forall (P : N -> Prop) b s :
  P 0x20 -> Forall P s -> Forall P (sub_ws_from b s).
Proof.
  intros H0 H. revert b. induction H as [|c r Hc Hr IH]; intros b; simpl.
  { constructor. }
  destruct (is_space c); [destruct b|]; auto.
Qed.

Lemma sub_disallowed_id s :
  Forall (fun c => allowed ua c = true) s -> sub_disallowed ua s = s.
Proof.
  unfold sub_disallowed. induction 1 as [|c r Hc Hr IH]; simpl; [done|].
  by rewrite Hc, IH.
Qed.

Lemma sub_ws_from_head b s :
  (forall c, head s = Some c -> is_space c = false) ->
  forall c, head (sub_ws_from b s) = Some c -> is_space c = false.
Proof.
  destruct s as [|d r]; simpl; [done|]. intros H.
  rewrite (H d eq_refl). simpl. intros c [= <-]. by apply H.
Qed.

Lemma sub_ws_from_nil b s :
  sub_ws_from b s = [] -> Forall (fun c => is_space c = true) s.
Proof.
  revert b. induction s as [|d r IH]; intros b; simpl; [constructor|].
  destruct (is_space d) eqn:Hd; [|done].
  destruct b; [|done]. intros H. constructor; [done|]. by eapply IH.
Qed.

Lemma last_Forall (P : N -> Prop) s c :
  Forall P s -> last s = Some c -> P c.
Proof.
  intros H Hl. apply last_Some in Hl as [s' ->].
  apply Forall_app in H as [_ H]. by inversion H.
Qed.

Lemma sub_ws_from_last b s c :
  last (sub_ws_from b s) = Some c -> is_space c = true ->
  exists d, last s = Some d /\ is_space d = true.
Proof.
  revert b. induction s as [|d r IH]; intros b; simpl; [done|].
  destruct (is_space d) eqn:Hd.
  - assert (last (sub_ws_from true r) = Some c -> is_space c = true ->
            exists d', last (d :: r) = Some d' /\ is_space d' = true)
      as Hrec.
    { intros Hl Hc. destruct (IH true Hl Hc) as (d' & Hd' & Hs).
      exists d'. split; [|done]. destruct r; [done|]. by rewrite last_cons, Hd'. }
    destruct b; [exact Hrec|].
    destruct (sub_ws_from true r) as [|e t] eqn:Ht.
    + intros _ _. apply sub_ws_from_nil in Ht.
      destruct (last (d :: r)) as [d'|] eqn:Hl; [|by apply last_None in Hl].
      exists d'. split; [done|].
      by apply (last_Forall (fun c => is_space c = true) (d :: r));
        [constructor|].
    + rewrite last_cons. destruct (last (e :: t)) eqn:Hl;
        [exact Hrec | by apply last_None in Hl].
  - destruct (sub_ws_from false r) as [|e t] eqn:Ht.
    + simpl. intros [= <-] Hc. congruence.
    + rewrite last_cons. destruct (last (e :: t)) as [x|] eqn:Hl;
        [|by apply last_None in Hl].
      intros [= ->] Hc. rewrite <- Ht in Hl.
      destruct (IH false Hl Hc) as (d' & Hd' & Hs).
      exists d'. split; [|done]. destruct r; [done|]. by rewrite last_cons, Hd'.
Qed.

(** On its own results the sanitizer does what its first substitution
    does. *)
Lemma clean_text_twice x :
  _clean_text ua (_clean_text ua x) = sub_ws (_clean_text ua x).
Proof.
  set (y := _clean_text ua x).
  assert (Forall (fun c => allowed ua c = true) y) as Hy.
  { eapply Forall_impl; [apply clean_text_chars|]. by intros c [? _]. }
  unfold _clean_text at 1.
  rewrite sub_disallowed_id.
  2:{ apply sub_ws_from_Forall; [|done]. by apply is_space_allowed. }
  unfold strip. rewrite lstrip_id.
  2:{ apply sub_ws_from_head. apply strip_head. }
  apply rstrip_id. intros c Hc.
  destruct (is_space c) eqn:Hs; [|done].
  destruct (sub_ws_from_last _ _ _ Hc Hs) as (d & Hd & Hsd).
  apply strip_last in Hd. congruence.
Qed.

Lemma sub_ws_from_length b s :
  (length (sub_ws_from b s) <= length s)%nat.
Proof.
  revert b. induction s as [|c r IH]; intros b; simpl; [lia|].
  pose proof (IH true). pose proof (IH false).
  destruct (is_space c); [destruct b|]; simpl; lia.
Qed.

(** The first substitution leaves a string as it is exactly when the
    string is single-spaced. *)
Lemma sub_ws_from_fixed b s :
  sub_ws_from b s = s <-> single_spaced b s = true.
Proof.
  revert b. induction s as [|c r IH]; intros b; simpl; [done|].
  destruct (is_space c) eqn:Hc.
  - destruct b; simpl.
    + rewrite andb_false_r. split; [|done]. intros H.
      pose proof (sub_ws_from_length true r) as Hlen.
      rewrite H in Hlen. simpl in Hlen. lia.
    + rewrite andb_true_r, andb_true_iff, N.eqb_eq, <- IH.
      split; [by intros [= <- H] | by intros [-> ->]].
  - rewrite <- IH. split; [by intros [= H] | by intros ->].
Qed.

(** The sanitizer is idempotent at [x] exactly when its result for [x] is
    single-spaced. *)
Lemma clean_text_idempotent_iff x :
  _clean_text ua (_clean_text ua x) = _clean_text ua x
  <-> single_spaced false (_clean_text ua x) = true.
Proof. rewrite clean_text_twice. apply sub_ws_from_fixed. Qed.

Lemma single_spaced_sub_ws b s : single_spaced b (sub_ws_from b s) = true.
Proof.
  revert b. induction s as [|c r IH]; intros b; simpl; [done|].
  destruct (is_space c) eqn:Hc.
  - destruct b; [apply IH|]. simpl. apply IH.
  - simpl. rewrite Hc. apply IH.
Qed.

Lemma single_spaced_lstrip b s :
  single_spaced b s = true -> single_spaced false (lstrip s) = true.
Proof.
  revert b. induction s as [|c r IH]; intros b; simpl; [done|].
  destruct (is_space c) eqn:Hc.
  - intros H. apply andb_true_iff in H as [_ H]. by eapply IH.
  - simpl. by rewrite Hc.
Qed.

Lemma single_spaced_rstrip b s :
  single_spaced b s = true -> single_spaced b (rstrip s) = true.
Proof.
  revert b. induction s as [|c r IH]; intros b; simpl; [done|].
  destruct (rstrip r) as [|d k] eqn:Hr.
  - destruct (is_space c) eqn:Hc; simpl; [done|]. by rewrite Hc.
  - simpl. destruct (is_space c) eqn:Hc.
    + intros H. apply andb_true_iff in H as [H1 H2].
      rewrite H1. by apply (IH true).
    + by apply (IH false).
Qed.

(** The two substitutions do not get in each other's way on a text
    without characters outside the class: there the result is
    single-spaced, and the sanitizer is idempotent. *)
Lemma clean_text_on_allowed x :
  Forall (fun c => allowed ua c = true) x ->
  single_spaced false (_clean_text ua x) = true
  /\ _clean_text ua (_clean_text ua x) = _clean_text ua x.
Proof.
  intros Hx.
  assert (single_spaced false (_clean_text ua x) = true) as H.
  { unfold _clean_text. rewrite sub_disallowed_id.
    2:{ apply sub_ws_from_Forall; [|done]. by apply is_space_allowed. }
    unfold strip.
    eapply single_spaced_rstrip, single_spaced_lstrip, single_spaced_sub_ws. }
  split; [done|]. by apply clean_text_idempotent_iff.
Qed.

End SanitizerFacts.

(** ** The fetcher *)

Section FetcherFacts.
Import Soup Effects PTTScraper.
Local Open Scope py_scope.

Variable env : Env.
Variable self : PTTScraper.

(** The three statements of the [try] block of [_make_request] in one
    step: the request is sent, and the block ends as [attempt_result]
    says. *)
Lemma try_block_run url w :
  (let! response := session_get env url in
   raise_for_status response ;; ret (Some response)) w
  = (match attempt_result env (n_get w) url with
     | inr response => Ok (Some response)
     | inl e => Raise e
     end,
     {| n_get := S (n_get w); n_uniform := n_uniform w;
        events := events w ++ [EGet url] |}).
Proof.
  unfold bind, session_get, raise_for_status, attempt_result.
  destruct (http_get env (n_get w) url) as [e|r]; [done|].
  by destruct (ok r).
Qed.

Lemma loop_success url attempt rest w r :
  attempt_result env (n_get w) url = inr r ->
  _make_request_loop env self url (attempt :: rest) w
  = (Ok (Some r),
     {| n_get := S (n_get w); n_uniform := n_uniform w;
        events := events w ++ [EGet url] |}).
Proof.
  intros Hr. simpl. unfold try_except.
  by rewrite try_block_run, Hr.
Qed.

Lemma loop_failure url attempt rest w e :
  attempt_fails env (n_get w) url e ->
  _make_request_loop env self url (attempt :: rest) w
  = if (attempt <? max_retries self - 1)%Z
    then
      if Qle_bool 0 (delay env self (n_uniform w))
      then _make_request_loop env self url rest
             {| n_get := S (n_get w); n_uniform := S (n_uniform w);
                events := events w ++ retry_round env self url
                                        attempt (n_uniform w) e |}
      else (Raise (ValueError (py "sleep length must be non-negative")),
            {| n_get := S (n_get w); n_uniform := S (n_uniform w);
               events := events w ++ final_round self url attempt e |})
    else _make_request_loop env self url rest
           {| n_get := S (n_get w); n_uniform := n_uniform w;
              events := events w ++ final_round self url attempt e |}.
Proof.
  intros [Hr He]. simpl. unfold try_except at 1.
  rewrite try_block_run, Hr, He.
  unfold bind, emit, random_uniform_1_3, time_sleep, delay,
    retry_round, final_round, ret; simpl.
  destruct (attempt <? max_retries self - 1)%Z; simpl.
  - destruct (Qle_bool 0 _); unfold emit, raise; simpl;
      by rewrite <- ?app_assoc.
  - by rewrite <- ?app_assoc.
Qed.

Lemma loop_propagates url attempt rest w e :
  attempt_result env (n_get w) url = inl e ->
  isinstance_RequestException e = false ->
  _make_request_loop env self url (attempt :: rest) w
  = (Raise e,
     {| n_get := S (n_get w); n_uniform := n_uniform w;
        events := events w ++ [EGet url] |}).
Proof.
  intros Hr He. simpl. unfold try_except.
  by rewrite try_block_run, Hr, He.
Qed.

Lemma range_seq n : range n = Z.of_nat <$> seq 0 (Z.to_nat n).
Proof.
  unfold range, seqZ. apply list_fmap_ext. intros _ i _. lia.
Qed.

(** A run of failed attempts, each of them followed by a wait. *)
Lemma loop_retry_rounds url es :
  forall (a : nat) (w : World) (rest : list Z),
    (forall j e, es !! j = Some e ->
                 attempt_fails env (n_get w + j) url e) ->
    (forall j, j < length es ->
               (0 <= delay env self (n_uniform w + j))%Q) ->
    (Z.of_nat (a + length es) <= max_retries self - 1)%Z ->
    _make_request_loop env self url
      ((Z.of_nat <$> seq a (length es)) ++ rest) w
    = _make_request_loop env self url rest
        {| n_get := n_get w + length es;
           n_uniform := n_uniform w + length es;
           events := events w ++
             concat (imap (fun j e =>
                             retry_round env self url (Z.of_nat (a + j))
                               (n_uniform w + j) e) es) |}.
Proof.
  induction es as [|e es IH]; intros a w rest Hes Hdelay Hmax.
  - destruct w as [g u evs]; simpl.
    by rewrite !Nat.add_0_r, app_nil_r.
  - simpl in Hmax.
    change (Z.of_nat <$> seq a (length (e :: es)))
      with (Z.of_nat a :: (Z.of_nat <$> seq (S a) (length es))).
    rewrite <- app_comm_cons.
    rewrite (loop_failure url _ _ w e).
    2:{ specialize (Hes 0%nat e eq_refl). by rewrite Nat.add_0_r in Hes. }
    replace (Z.of_nat a <? max_retries self - 1)%Z with true
      by (symmetry; apply Z.ltb_lt; lia).
    replace (Qle_bool 0 (delay env self (n_uniform w))) with true.
    2:{ symmetry. apply Qle_bool_iff.
        specialize (Hdelay 0%nat). rewrite Nat.add_0_r in Hdelay.
        apply Hdelay. simpl. lia. }
    rewrite IH; simpl.
    + f_equal. f_equal; [lia | lia |].
      rewrite <- app_assoc, !Nat.add_0_r. f_equal.
      unfold retry_round at 1. simpl. do 4 f_equal.
      apply imap_ext. intros j x _. simpl.
      by rewrite !Nat.add_succ_r.
    + intros j x Hx. specialize (Hes (S j) x Hx).
      by rewrite Nat.add_succ_r in Hes.
    + intros j Hj. specialize (Hdelay (S j)).
      rewrite Nat.add_succ_r in Hdelay. apply Hdelay. simpl. lia.
    + lia.
Qed.

(** The fetcher only appends to the trace, and it sends at most one
    request per attempt. *)
Lemma loop_gets url attempts :
  forall w, exists new,
    events (_make_request_loop env self url attempts w).2
    = events w ++ new
    /\ length (List.filter is_get new) <= length attempts.
Proof.
  induction attempts as [|a rest IH]; intros w.
  { exists []. simpl. by rewrite app_nil_r. }
  destruct (attempt_result env (n_get w) url) as [e|r] eqn:Hr.
  - destruct (isinstance_RequestException e) eqn:He.
    + rewrite (loop_failure url a rest w e) by done.
      destruct (a <? max_retries self - 1)%Z;
        [destruct (Qle_bool 0 _)|].
      * match goal with |- context [_make_request_loop _ _ _ _ ?w1] =>
          destruct (IH w1) as (new & -> & Hnew) end.
        simpl. rewrite <- app_assoc. eexists. split; [done|]. simpl. lia.
      * eexists. split; [done|]. simpl. lia.
      * match goal with |- context [_make_request_loop _ _ _ _ ?w1] =>
          destruct (IH w1) as (new & -> & Hnew) end.
        simpl. rewrite <- app_assoc. eexists. split; [done|]. simpl. lia.
    + rewrite (loop_propagates url a rest w e) by done.
      exists [EGet url]. simpl. split; [done | lia].
  - rewrite (loop_success url a rest w r) by done.
    exists [EGet url]. simpl. split; [done | lia].
Qed.

(** A response that the fetcher returns passed [raise_for_status]. *)
Lemma loop_returns_ok url attempts :
  forall w r w',
    _make_request_loop env self url attempts w = (Ok (Some r), w') ->
    ok r = true.
Proof.
  induction attempts as [|a rest IH]; intros w r w'; [done|].
  destruct (attempt_result env (n_get w) url) as [e|r0] eqn:Hr.
  - destruct (isinstance_RequestException e) eqn:He.
    + rewrite (loop_failure url a rest w e) by done.
      destruct (a <? max_retries self - 1)%Z;
        [destruct (Qle_bool 0 _)|]; [apply IH | done | apply IH].
    + by rewrite (loop_propagates url a rest w e).
  - rewrite (loop_success url a rest w r0) by done.
    intros [= -> _]. unfold attempt_result in Hr.
    destruct (http_get env (n_get w) url) as [|r1]; [done|].
    destruct (ok r1) eqn:Hok; [|done]. by injection Hr as ->.
Qed.

Lemma make_request_returns_ok url w r w' :
  _make_request env self url w = (Ok (Some r), w') -> ok r = true.
Proof. apply loop_returns_ok. Qed.

(** When every attempt fails, the fetcher returns no response: it returns
    [None], or a wait of negative length raises. *)
Lemma loop_all_fail url attempts :
  forall w,
    (forall j, j < length attempts ->
               exists e, attempt_fails env (n_get w + j) url e) ->
    exists w',
      _make_request_loop env self url attempts w = (Ok None, w')
      \/ exists e, _make_request_loop env self url attempts w = (Raise e, w').
Proof.
  induction attempts as [|a rest IH]; intros w Hall.
  { eexists. by left. }
  destruct (Hall 0%nat) as [e He]; [simpl; lia|].
  rewrite Nat.add_0_r in He.
  rewrite (loop_failure url a rest w e) by done.
  assert (forall w1, n_get w1 = S (n_get w) ->
            forall j, j < length rest ->
                      exists e, attempt_fails env (n_get w1 + j) url e)
    as Hrest.
  { intros w1 Hw1 j Hj. destruct (Hall (S j)) as [e' He']; [simpl; lia|].
    exists e'. rewrite Nat.add_succ_r in He'. by rewrite Hw1. }
  destruct (a <? max_retries self - 1)%Z; [destruct (Qle_bool 0 _)|].
  - by apply IH, Hrest.
  - eexists. right. by eexists.
  - by apply IH, Hrest.
Qed.

End FetcherFacts.

(** ** The extractors *)

Section ExtractorFacts.
Import Soup Effects PTTScraper.
Local Open Scope py_scope.

Variable env : Env.
Variable self : PTTScraper.

Lemma try_except_ok {A} (m : M A) is_C h w a w' :
  m w = (Ok a, w') -> try_except m is_C h w = (Ok a, w').
Proof. unfold try_except. by intros ->. Qed.

Lemma try_except_caught {A} (m : M A) h w e w' :
  m w = (Raise e, w') -> try_except m isinstance_Exception h w = h e w'.
Proof. unfold try_except. by intros ->. Qed.

Lemma bind_ok {A B} (m : M A) (k : A -> M B) w a w' :
  m w = (Ok a, w') -> bind m k w = k a w'.
Proof. unfold bind. by intros ->. Qed.

Lemma bind_raise {A B} (m : M A) (k : A -> M B) w e w' :
  m w = (Raise e, w') -> bind m k w = (Raise e, w').
Proof. unfold bind. by intros ->. Qed.

(** [_get_post_content] always returns a string. *)
Lemma get_post_content_total url w :
  exists s w', _get_post_content env self url w = (Ok s, w').
Proof.
  unfold _get_post_content, try_except.
  match goal with |- context [match ?m with _ => _ end] =>
    destruct m as [[s|e] w'] end; by eauto.
Qed.

(** What [_extract_post_info] returns for a container that is not
    extractable, and for one that is. *)
Lemma extract_post_info_skip post_div w :
  extractable post_div = false ->
  exists w', _extract_post_info env post_div w = (Ok None, w').
Proof.
  unfold extractable, title_link, _extract_post_info, try_except.
  intros H.
  destruct (find (is_div_with_class (py "title")) post_div) as [t|];
    [|by eexists].
  destruct (find (name_is (py "a")) t) as [a|]; [|by eexists].
  unfold bind at 1, getitem.
  destruct (attrs_of a !! py "href") as [href|] eqn:Hh.
  - exfalso. apply bool_decide_eq_false in H. apply H. by eexists.
  - by eexists.
Qed.

Lemma extract_post_info_entry post_div w :
  extractable post_div = true ->
  exists info,
    _extract_post_info env post_div w = (Ok (Some info), w)
    /\ info <> ∅
    /\ (forall content, entry_of env post_div (<[py "content" := content]> info))
    /\ is_Some (info !! py "link").
Proof.
  unfold extractable, entry_of, title_link, field_text,
    _extract_post_info, try_except.
  intros H.
  destruct (find (is_div_with_class (py "title")) post_div) as [t|];
    [|done].
  destruct (find (name_is (py "a")) t) as [a|]; [|done].
  apply bool_decide_eq_true in H as [href Hh].
  unfold bind at 1, getitem. rewrite Hh. simpl.
  eexists. split; [reflexivity|]. split; [apply insert_non_empty|].
  split.
  - intros content. exists a, href.
    repeat split; try done; by simplify_map_eq.
  - by simplify_map_eq.
Qed.

(** The loop over the containers adds one entry for each extractable
    container, in the order of the containers, and never raises. *)
Lemma posts_loop_spec post_divs :
  forall posts_data w,
  exists posts w',
    _posts_loop env self post_divs posts_data w = (Ok (posts_data ++ posts), w')
    /\ Forall2 (entry_of env) (List.filter extractable post_divs) posts.
Proof.
  induction post_divs as [|d rest IH]; intros acc w.
  { exists [], w. simpl. rewrite app_nil_r. by split. }
  simpl. destruct (extractable d) eqn:Hd.
  - destruct (extract_post_info_entry d w Hd)
      as (info & Hrun & Hne & Hentry & [link Hlink]).
    destruct (get_post_content_total link w) as (content & w1 & Hc).
    unfold bind at 1.
    erewrite try_except_ok; cycle 1.
    { erewrite bind_ok by exact Hrun. cbv beta iota.
      rewrite bool_decide_eq_false_2 by done.
      unfold getitem. rewrite Hlink.
      erewrite bind_ok by reflexivity. cbv beta.
      erewrite bind_ok by exact Hc. reflexivity. }
    destruct (IH (acc ++ [<[py "content" := content]> info]) w1)
      as (posts & w' & -> & Hposts).
    exists (<[py "content" := content]> info :: posts), w'.
    split; [by rewrite <- app_assoc|].
    by constructor.
  - destruct (extract_post_info_skip d w Hd) as (w1 & Hrun).
    unfold bind at 1.
    erewrite try_except_ok; cycle 1.
    { erewrite bind_ok by exact Hrun. reflexivity. }
    cbv beta iota. apply IH.
Qed.

Lemma slice_to_length {A} (l : list A) (n : Z) :
  (0 <= n)%Z -> length (slice_to l n) = Nat.min (Z.to_nat n) (length l).
Proof.
  intros Hn. unfold slice_to.
  rewrite (proj2 (Z.leb_le 0 n) Hn). apply length_take.
Qed.

Lemma filter_length_le {A} (p : A -> bool) (l : list A) :
  length (List.filter p l) <= length l.
Proof.
  induction l as [|x l IH]; simpl; [lia|].
  destruct (p x); simpl; lia.
Qed.

Lemma filter_length_split {A} (p : A -> bool) (l : list A) :
  length (List.filter p l)
  = length l - length (List.filter (fun x => negb (p x)) l).
Proof.
  induction l as [|x l IH]; simpl; [done|].
  pose proof (filter_length_le (fun x => negb (p x)) l).
  destruct (p x); simpl; lia.
Qed.

Lemma entry_of_five_fields post_div post :
  entry_of env post_div post -> has_five_fields post.
Proof.
  intros (a & href & _ & _ & Hl & Ht & Ha & Hd & [c Hc]).
  unfold has_five_fields. by repeat eexists.
Qed.

(** The whole of [get_ptt_stock_posts] once the listing page has been
    fetched and parsed. *)
Lemma get_posts_fetched url num_posts w r w1 soup :
  _make_request env self url w = (Ok (Some r), w1) ->
  html_parser env (text r) = inr soup ->
  exists posts w',
    get_ptt_stock_posts env self url num_posts w = (Ok posts, w')
    /\ Forall2 (entry_of env)
         (List.filter extractable
            (slice_to (find_all (is_div_with_class (py "r-ent")) soup)
                      num_posts))
         posts.
Proof.
  intros Hreq Hparse.
  pose proof (make_request_returns_ok env self url w r w1 Hreq) as Hok.
  destruct (posts_loop_spec
              (slice_to (find_all (is_div_with_class (py "r-ent")) soup)
                        num_posts) [] w1)
    as (posts & w' & Hloop & Hposts).
  exists posts, w'. split; [|done].
  unfold get_ptt_stock_posts.
  apply try_except_ok.
  erewrite bind_ok by exact Hreq. cbv beta iota.
  rewrite Hok. change (negb true) with false. cbv iota.
  unfold BeautifulSoup. rewrite Hparse.
  erewrite bind_ok by reflexivity.
  exact Hloop.
Qed.

End ExtractorFacts.

(** ** The claims about the fetcher *)

Section FetcherClaims.
Import Soup Effects PTTScraper.

Variable env : Env.
Variable self : PTTScraper.

(** C4, as amended.  [_make_request] sends at most [max_retries] requests.
    An attempt succeeds when [session.get] raises nothing and the status is
    outside 400..599 (the test of [raise_for_status]; the status need not
    be 2xx), and it fails when a [RequestException] is raised.  If the
    attempts before the [k]-th fail and the [k]-th succeeds, the response
    of that attempt is returned after exactly [k + 1] requests, each
    failed attempt having been followed by a warning and by a wait of
    [retry_delay + random.uniform(1, 3)] seconds.  If all [max_retries]
    attempts fail, [None] is returned, and every failed attempt but the
    last was followed by such a wait; the last is followed by none.  The
    waits are taken to be of non-negative length, as [time.sleep]
    requires. *)
Theorem make_request_protocol (url : str) (w : World) :
  let n := Z.to_nat (max_retries self) in
  let retries (es : list Exn) :=
    concat (imap (fun j e =>
                    retry_round env self url (Z.of_nat j) (n_uniform w + j) e)
                 es) in
  (exists new,
      events (_make_request env self url w).2 = events w ++ new
      /\ length (List.filter is_get new) <= n)
  /\ (forall (es : list Exn) (r : Response),
        length es < n ->
        (forall j e, es !! j = Some e ->
                     attempt_fails env (n_get w + j) url e) ->
        (forall j, j < length es ->
                   (0 <= delay env self (n_uniform w + j))%Q) ->
        attempt_result env (n_get w + length es) url = inr r ->
        _make_request env self url w
        = (Ok (Some r),
           {| n_get := S (n_get w + length es);
              n_uniform := n_uniform w + length es;
              events := events w ++ retries es ++ [EGet url] |}))
  /\ (forall (es : list Exn) (e_last : Exn),
        S (length es) = n ->
        (forall j e, (es ++ [e_last]) !! j = Some e ->
                     attempt_fails env (n_get w + j) url e) ->
        (forall j, j < length es ->
                   (0 <= delay env self (n_uniform w + j))%Q) ->
        _make_request env self url w
        = (Ok None,
           {| n_get := S (n_get w + length es);
              n_uniform := n_uniform w + length es;
              events := events w ++ retries es ++
                        final_round self url (Z.of_nat (length es)) e_last |})).
Proof.
  intros n retries. unfold _make_request. split; [|split].
  - destruct (loop_gets env self url (range (max_retries self)) w)
      as (new & Hnew & Hlen).
    exists new. split; [done|].
    unfold range in Hlen. rewrite length_seqZ in Hlen. exact Hlen.
  - intros es r Hlt Hes Hdelay Hr.
    rewrite range_seq. fold n.
    replace n with (length es + S (n - length es - 1)) by lia.
    rewrite seq_app, fmap_app. simpl seq. rewrite fmap_cons.
    rewrite (loop_retry_rounds env self url es 0 w); [|done|done|lia].
    erewrite loop_success by exact Hr. simpl.
    by rewrite <- app_assoc.
  - intros es e_last Hn Hes Hdelay.
    rewrite range_seq. fold n. rewrite <- Hn.
    replace (S (length es)) with (length es + 1) by lia.
    rewrite seq_app, fmap_app. simpl seq. rewrite fmap_cons, fmap_nil.
    rewrite (loop_retry_rounds env self url es 0 w); [| |done|lia].
    2:{ intros j e Hj. apply Hes. by apply lookup_app_l_Some. }
    erewrite loop_failure; cycle 1.
    { simpl. apply Hes. by rewrite list_lookup_middle. }
    replace (Z.of_nat (length es) <? max_retries self - 1)%Z with false
      by (symmetry; apply Z.ltb_ge; lia).
    simpl. by rewrite <- app_assoc.
Qed.

(** C10.  With [max_retries = 0] the fetcher returns [None] and leaves the
    world as it was: no request is sent, nothing is logged, no wait. *)
Theorem make_request_zero_retries (url : str) (w : World) :
  max_retries self = 0%Z ->
  _make_request env self url w = (Ok None, w).
Proof.
  intros H. unfold _make_request. by rewrite H.
Qed.

End FetcherClaims.

(** ** The claims about the extractors *)

Section ExtractorClaims.
Import Soup Effects PTTScraper.
Local Open Scope py_scope.

Variable env : Env.
Variable self : PTTScraper.

Lemma entries_five_fields post_divs posts :
  Forall2 (entry_of env) post_divs posts -> Forall has_five_fields posts.
Proof.
  induction 1 as [|d p ds ps Hp _ IH]; constructor; [|done].
  by eapply entry_of_five_fields.
Qed.

(** C1.  For [num_posts >= 0], [get_ptt_stock_posts] returns, without
    raising, a list of at most [num_posts] entries, and every entry has the
    five keys [title], [link], [author], [date] and [content], each bound
    to a string. *)
Theorem get_posts_bounded (url : str) (num_posts : Z) (w : World) :
  (0 <= num_posts)%Z ->
  exists posts w',
    get_ptt_stock_posts env self url num_posts w = (Ok posts, w')
    /\ (Z.of_nat (length posts) <= num_posts)%Z
    /\ Forall has_five_fields posts.
Proof.
  intros Hn.
  destruct (_make_request env self url w) as [[[r|]|e] w1] eqn:Hreq.
  - destruct (html_parser env (text r)) as [e|soup] eqn:Hparse.
    + pose proof (make_request_returns_ok env self url w r w1 Hreq) as Hok.
      eexists [], _. split; [|split; [simpl; lia | constructor]].
      unfold get_ptt_stock_posts.
      erewrite try_except_caught; [reflexivity|].
      erewrite bind_ok by exact Hreq. cbv beta iota.
      rewrite Hok. change (negb true) with false. cbv iota.
      unfold BeautifulSoup. rewrite Hparse. reflexivity.
    + destruct (get_posts_fetched env self url num_posts w r w1 soup
                  Hreq Hparse) as (posts & w' & Hrun & Hposts).
      exists posts, w'. split; [done|]. split.
      * apply Forall2_length in Hposts. rewrite <- Hposts.
        pose proof (filter_length_le extractable
          (slice_to (find_all (is_div_with_class (py "r-ent")) soup)
                    num_posts)) as Hle.
        rewrite slice_to_length in Hle by done. lia.
      * by eapply entries_five_fields.
  - eexists [], _. split; [|split; [simpl; lia | constructor]].
    unfold get_ptt_stock_posts. apply try_except_ok.
    by erewrite bind_ok by exact Hreq.
  - eexists [], _. split; [|split; [simpl; lia | constructor]].
    unfold get_ptt_stock_posts.
    erewrite try_except_caught; [reflexivity|].
    by erewrite bind_raise by exact Hreq.
Qed.

(** C3, as amended.  Once the listing page is fetched and parsed,
    [get_ptt_stock_posts] looks at the first [num_posts] containers only,
    leaves out those of them without a title link carrying an [href], and
    returns one entry for each of the others, in document order: as many
    entries as containers looked at, less the ones left out among them. *)
Theorem get_posts_entries (url : str) (num_posts : Z) (w w1 : World)
    (r : Response) (soup : Node) :
  _make_request env self url w = (Ok (Some r), w1) ->
  html_parser env (text r) = inr soup ->
  let containers := find_all (is_div_with_class (py "r-ent")) soup in
  let considered := slice_to containers num_posts in
  exists posts w',
    get_ptt_stock_posts env self url num_posts w = (Ok posts, w')
    /\ Forall2 (entry_of env) (List.filter extractable considered) posts
    /\ length posts
       = length considered
         - length (List.filter (fun d => negb (extractable d)) considered)
    /\ ((0 <= num_posts)%Z ->
        length considered = Nat.min (Z.to_nat num_posts) (length containers)).
Proof.
  intros Hreq Hparse containers considered.
  destruct (get_posts_fetched env self url num_posts w r w1 soup Hreq Hparse)
    as (posts & w' & Hrun & Hposts).
  exists posts, w'. split; [done|]. split; [done|]. split.
  - apply Forall2_length in Hposts. rewrite <- Hposts.
    apply filter_length_split.
  - intros Hn. by apply slice_to_length.
Qed.

(** C6.  If the fetcher returns [None] for the listing page,
    [get_ptt_stock_posts] returns the empty list and does nothing more;
    and if every attempt to fetch the listing page fails, it returns the
    empty list.  It raises in neither case. *)
Theorem get_posts_fetch_failure (url : str) (num_posts : Z) (w : World) :
  (forall w1,
      _make_request env self url w = (Ok None, w1) ->
      get_ptt_stock_posts env self url num_posts w = (Ok [], w1))
  /\ ((forall j, j < Z.to_nat (max_retries self) ->
                 exists e, attempt_fails env (n_get w + j) url e) ->
      exists w', get_ptt_stock_posts env self url num_posts w = (Ok [], w')).
Proof.
  assert (forall w1,
             _make_request env self url w = (Ok None, w1) ->
             get_ptt_stock_posts env self url num_posts w = (Ok [], w1))
    as Hnone.
  { intros w1 Hreq. unfold get_ptt_stock_posts. apply try_except_ok.
    by erewrite bind_ok by exact Hreq. }
  split; [exact Hnone|].
  intros Hall.
  destruct (loop_all_fail env self url (range (max_retries self)) w)
    as (w' & [Hreq | [e Hreq]]).
  { unfold range. by rewrite length_seqZ. }
  - exists w'. by apply Hnone.
  - eexists. unfold get_ptt_stock_posts.
    erewrite try_except_caught; [reflexivity|].
    by erewrite bind_raise by exact Hreq.
Qed.

(** The runs of [_get_post_content], by what the fetcher and the parser
    give. *)
Lemma get_post_content_unavailable url w w1 :
  _make_request env self url w = (Ok None, w1) ->
  _get_post_content env self url w = (Ok content_unavailable, w1).
Proof.
  intros Hreq. unfold _get_post_content. apply try_except_ok.
  by erewrite bind_ok by exact Hreq.
Qed.

Lemma get_post_content_parsed url w w1 r soup :
  _make_request env self url w = (Ok (Some r), w1) ->
  html_parser env (text r) = inr soup ->
  _get_post_content env self url w
  = (Ok match find (has_attr (py "id") (py "main-content")) soup with
        | None => content_container_not_found
        | Some content_div =>
            _clean_text env
              (strip (get_text (decompose_all is_div_or_span content_div)))
        end, w1).
Proof.
  intros Hreq Hparse.
  pose proof (make_request_returns_ok env self url w r w1 Hreq) as Hok.
  unfold _get_post_content. apply try_except_ok.
  erewrite bind_ok by exact Hreq. cbv beta iota.
  rewrite Hok. change (negb true) with false. cbv iota.
  unfold BeautifulSoup. rewrite Hparse.
  erewrite bind_ok by reflexivity. cbv beta.
  by destruct (find (has_attr (py "id") (py "main-content")) soup).
Qed.

Lemma get_post_content_fetch_raises url w w1 e :
  _make_request env self url w = (Raise e, w1) ->
  _get_post_content env self url w
  = (Ok error_extracting_content,
     {| n_get := n_get w1; n_uniform := n_uniform w1;
        events := events w1 ++ [EError e] |}).
Proof.
  intros Hreq. unfold _get_post_content.
  erewrite try_except_caught; [reflexivity|].
  by erewrite bind_raise by exact Hreq.
Qed.

Lemma get_post_content_parser_raises url w w1 r e :
  _make_request env self url w = (Ok (Some r), w1) ->
  html_parser env (text r) = inl e ->
  _get_post_content env self url w
  = (Ok error_extracting_content,
     {| n_get := n_get w1; n_uniform := n_uniform w1;
        events := events w1 ++ [EError e] |}).
Proof.
  intros Hreq Hparse.
  pose proof (make_request_returns_ok env self url w r w1 Hreq) as Hok.
  unfold _get_post_content.
  erewrite try_except_caught; [reflexivity|].
  erewrite bind_ok by exact Hreq. cbv beta iota.
  rewrite Hok. change (negb true) with false. cbv iota.
  unfold BeautifulSoup. by rewrite Hparse.
Qed.

(** C5.  [_get_post_content] always returns a string and never raises.
    It returns the reply of line 118 when the fetcher returns [None], the
    reply of line 124 when the parsed page has no element with the id
    [main-content], the reply of line 134 when an exception is raised
    inside the [try] block (by the fetcher or by the parser), and otherwise
    the sanitized text of the container without its [div] and [span]
    elements. *)
Theorem get_post_content_cases (url : str) (w : World) :
  (exists s w', _get_post_content env self url w = (Ok s, w'))
  /\ (forall w1,
        _make_request env self url w = (Ok None, w1) ->
        _get_post_content env self url w = (Ok content_unavailable, w1))
  /\ (forall w1 r soup,
        _make_request env self url w = (Ok (Some r), w1) ->
        html_parser env (text r) = inr soup ->
        find (has_attr (py "id") (py "main-content")) soup = None ->
        _get_post_content env self url w
        = (Ok content_container_not_found, w1))
  /\ (forall w1 e,
        _make_request env self url w = (Raise e, w1)
        \/ (exists r, _make_request env self url w = (Ok (Some r), w1)
                      /\ html_parser env (text r) = inl e) ->
        _get_post_content env self url w
        = (Ok error_extracting_content,
           {| n_get := n_get w1; n_uniform := n_uniform w1;
              events := events w1 ++ [EError e] |}))
  /\ (forall w1 r soup content_div,
        _make_request env self url w = (Ok (Some r), w1) ->
        html_parser env (text r) = inr soup ->
        find (has_attr (py "id") (py "main-content")) soup
        = Some content_div ->
        _get_post_content env self url w
        = (Ok (_clean_text env
                 (strip (get_text
                           (decompose_all is_div_or_span content_div)))),
           w1)).
Proof.
  split; [apply get_post_content_total|].
  split; [apply get_post_content_unavailable|].
  split; [|split].
  - intros w1 r soup Hreq Hparse Hfind.
    rewrite (get_post_content_parsed url w w1 r soup Hreq Hparse).
    by rewrite Hfind.
  - intros w1 e [Hreq | (r & Hreq & Hparse)].
    + by apply get_post_content_fetch_raises.
    + by eapply get_post_content_parser_raises.
  - intros w1 r soup content_div Hreq Hparse Hfind.
    rewrite (get_post_content_parsed url w w1 r soup Hreq Hparse).
    by rewrite Hfind.
Qed.

(** C9.  When the page is fetched and its main-content container is found,
    and the text of the container without its [div] and [span] elements is
    empty or made only of whitespace and of characters outside the class of
    line 142, [_get_post_content] returns the empty string. *)
Theorem get_post_content_empty (url : str) (w w1 : World) (r : Response)
    (soup content_div : Node) :
  _make_request env self url w = (Ok (Some r), w1) ->
  html_parser env (text r) = inr soup ->
  find (has_attr (py "id") (py "main-content")) soup = Some content_div ->
  Forall (fun c => Text.is_space c = true
                   \/ Text.allowed (unicode_isalnum env) c = false)
         (get_text (decompose_all is_div_or_span content_div)) ->
  _get_post_content env self url w = (Ok [], w1).
Proof.
  intros Hreq Hparse Hfind Htext.
  rewrite (get_post_content_parsed url w w1 r soup Hreq Hparse), Hfind.
  do 2 f_equal. unfold _clean_text, strip.
  by apply clean_text_strippable, strip_Forall.
Qed.

End ExtractorClaims.

(** ** The claims about the sanitizer *)

Section SanitizerClaims.
Import Text.
Local Open Scope N_scope.

Variable ua : N -> bool.

(** C8.  Every character of what [_clean_text] returns is in the class of
    line 142: it is a word character, or whitespace, or lies between
    U+4E00 and U+9FFF, or is one of [, . ! ?] and of U+FF0C, U+3002,
    U+FF01, U+FF1F.  So no character outside the class gets through. *)
Theorem clean_text_allow_list (x : str) :
  Forall (fun c =>
            allowed ua c = true
            /\ (is_word ua c = true \/ is_space c = true
                \/ (0x4E00 <= c <= 0x9FFF)
                \/ c ∈ [0x2C; 0x2E; 0x21; 0x3F;
                        0xFF0C; 0x3002; 0xFF01; 0xFF1F]))
         (_clean_text ua x).
Proof.
  eapply Forall_impl; [apply (clean_text_chars ua)|].
  intros c [Hc _]. split; [done|].
  unfold allowed in Hc.
  destruct (is_word ua c); [by left|].
  destruct (is_space c); [by right; left|].
  simpl in Hc. do 2 right.
  repeat (apply orb_true_iff in Hc as [Hc|Hc]);
    try (apply N.eqb_eq in Hc as ->; right; set_solver).
  apply andb_true_iff in Hc as [?%N.leb_le ?%N.leb_le]. by left.
Qed.

(** On C2.  [_clean_text] maps ["a @ b"] to ["a  b"], with two spaces, and
    maps that to ["a b"]: applying it twice is not applying it once. *)
Theorem clean_text_twice_differs :
  _clean_text ua (py "a @ b") = py "a  b"
  /\ _clean_text ua (_clean_text ua (py "a @ b")) = py "a b".
Proof. split; reflexivity. Qed.

(** On C7.  What [_clean_text] returns neither begins nor ends with
    whitespace, and its only whitespace is U+0020; but two of them can be
    adjacent: the result for ["a @ b"] is ["a  b"], which is not
    single-spaced. *)
Theorem clean_text_whitespace (x : str) :
  (forall c, head (_clean_text ua x) = Some c -> is_space c = false)
  /\ (forall c, last (_clean_text ua x) = Some c -> is_space c = false)
  /\ Forall (fun c => is_space c = true -> c = 0x20) (_clean_text ua x)
  /\ _clean_text ua (py "a @ b") = [0x61; 0x20; 0x20; 0x62]
  /\ single_spaced false (_clean_text ua (py "a @ b")) = false.
Proof.
  split; [|split; [|split; [|split]]].
  - apply strip_head.
  - apply strip_last.
  - eapply Forall_impl; [apply (clean_text_chars ua)|]. by intros c [_ ?].
  - reflexivity.
  - reflexivity.
Qed.

End SanitizerClaims.

(** ** The claims on concrete runs *)

Section Runs.
Import Soup Effects PTTScraper Fixtures.

(** On the flaky network the default scraper gets the page at the third
    attempt, after two warnings and two waits; on the server that is down
    it gives up after three requests, three warnings and two waits. *)
Lemma make_request_protocol_witness :
  _make_request env_flaky default_scraper board_url world0
  = (Ok (Some (response_200 board_url)),
     {| n_get := 3; n_uniform := 2;
        events :=
          [EGet board_url;
           EWarning 1 3 (RequestException (py "Read timed out."));
           ESleep 6;
           EGet board_url; EWarning 2 3 (HTTPError 503); ESleep 7;
           EGet board_url] |})
  /\ _make_request env_down default_scraper board_url world0
     = (Ok None,
        {| n_get := 3; n_uniform := 2;
           events :=
             [EGet board_url; EWarning 1 3 (HTTPError 500); ESleep 6;
              EGet board_url; EWarning 2 3 (HTTPError 500); ESleep 7;
              EGet board_url; EWarning 3 3 (HTTPError 500)] |}).
Proof.
  split.
  - apply (proj1 (proj2 (make_request_protocol env_flaky default_scraper
                           board_url world0))
             [RequestException (py "Read timed out."); HTTPError 503]
             (response_200 board_url)).
    + vm_compute. lia.
    + intros [|[|j]] e; simpl; intros [= <-]; split; reflexivity.
    + intros [|[|j]] Hj; [by apply Qle_bool_iff .. | simpl in Hj; lia].
    + reflexivity.
  - apply (proj2 (proj2 (make_request_protocol env_down default_scraper
                           board_url world0))
             [HTTPError 500; HTTPError 500] (HTTPError 500)).
    + reflexivity.
    + intros [|[|[|j]]] e; simpl; intros [= <-]; split; reflexivity.
    + intros [|[|j]] Hj; [by apply Qle_bool_iff .. | simpl in Hj; lia].
Defined.

(** The server answers 304, which is not a 2xx status; the fetcher
    returns that response after one request, with no warning, no wait and
    no further attempt. *)
Lemma make_request_returns_304 :
  _make_request env_not_modified default_scraper board_url world0
  = (Ok (Some response_304),
     {| n_get := 1; n_uniform := 0; events := [EGet board_url] |})
  /\ is_2xx (status_code response_304) = false.
Proof. split; reflexivity. Qed.

Lemma make_request_zero_retries_witness :
  _make_request env_board no_retry_scraper board_url world0
  = (Ok None, world0).
Proof.
  apply (make_request_zero_retries env_board no_retry_scraper).
  reflexivity.
Defined.

Lemma get_posts_bounded_witness :
  exists posts w',
    get_ptt_stock_posts env_board default_scraper board_url 5 world0
    = (Ok posts, w')
    /\ (Z.of_nat (length posts) <= 5)%Z
    /\ Forall has_five_fields posts.
Proof.
  apply (get_posts_bounded env_board default_scraper board_url 5 world0).
  lia.
Defined.

(** With five posts asked for, the listing of the deleted and the regular
    post gives the entry of the regular post. *)
Lemma get_posts_entries_witness :
  exists posts w',
    get_ptt_stock_posts env_board default_scraper board_url 5 world0
    = (Ok posts, w')
    /\ Forall2 (entry_of env_board)
         (List.filter extractable
            (slice_to (find_all (is_div_with_class (py "r-ent")) listing_soup)
                      5))
         posts
    /\ length posts
       = length (slice_to (find_all (is_div_with_class (py "r-ent"))
                             listing_soup) 5)
         - length (List.filter (fun d => negb (extractable d))
                     (slice_to (find_all (is_div_with_class (py "r-ent"))
                                  listing_soup) 5))
    /\ ((0 <= 5)%Z ->
        length (slice_to (find_all (is_div_with_class (py "r-ent"))
                            listing_soup) 5)
        = Nat.min (Z.to_nat 5)
            (length (find_all (is_div_with_class (py "r-ent"))
                       listing_soup))).
Proof.
  apply (get_posts_entries env_board default_scraper board_url 5 world0
           {| n_get := 1; n_uniform := 0; events := [EGet board_url] |}
           (response_200 board_url) listing_soup).
  - reflexivity.
  - reflexivity.
Defined.

(** The listing has two containers, one of which lacks a title link; with
    one post asked for, the claim's count [min(1, 2 - 1)] is one, and the
    list returned is empty: the only container looked at is the deleted
    post. *)
Lemma get_posts_first_deleted :
  let containers := find_all (is_div_with_class (py "r-ent")) listing_soup in
  length containers = 2
  /\ length (List.filter lacks_title_link containers) = 1
  /\ Nat.min 1 (2 - 1) = 1
  /\ (get_ptt_stock_posts env_board default_scraper board_url 1 world0).1
     = Ok [].
Proof. repeat split; reflexivity. Qed.

Lemma get_posts_fetch_failure_witness :
  get_ptt_stock_posts env_down default_scraper board_url 5 world0
  = (Ok [], (_make_request env_down default_scraper board_url world0).2)
  /\ exists w',
       get_ptt_stock_posts env_down default_scraper board_url 5 world0
       = (Ok [], w').
Proof.
  split.
  - apply (proj1 (get_posts_fetch_failure env_down default_scraper
                    board_url 5 world0)).
    reflexivity.
  - apply (proj2 (get_posts_fetch_failure env_down default_scraper
                    board_url 5 world0)).
    intros j _. exists (HTTPError 500). split; reflexivity.
Defined.

(** The four kinds of reply of [_get_post_content]. *)
Lemma get_post_content_cases_witness :
  _get_post_content env_down default_scraper board_url world0
  = (Ok content_unavailable,
     (_make_request env_down default_scraper board_url world0).2)
  /\ _get_post_content env_bare default_scraper board_url world0
     = (Ok content_container_not_found,
        {| n_get := 1; n_uniform := 0; events := [EGet board_url] |})
  /\ _get_post_content env_unparsable default_scraper board_url world0
     = (Ok error_extracting_content,
        {| n_get := 1; n_uniform := 0;
           events := [EGet board_url;
                      EError (OtherException (py "markup rejected"))] |})
  /\ _get_post_content env_board default_scraper (py "post") world0
     = (Ok (py "a  b"),
        {| n_get := 1; n_uniform := 0; events := [EGet (py "post")] |}).
Proof.
  split; [|split; [|split]].
  - apply (proj1 (proj2 (get_post_content_cases env_down default_scraper
                           board_url world0))).
    reflexivity.
  - apply (proj1 (proj2 (proj2 (get_post_content_cases env_bare
                                  default_scraper board_url world0)))
             _ (response_200 board_url) bare_soup); reflexivity.
  - apply (proj1 (proj2 (proj2 (proj2 (get_post_content_cases env_unparsable
                                         default_scraper board_url world0))))
             {| n_get := 1; n_uniform := 0; events := [EGet board_url] |}
             (OtherException (py "markup rejected"))).
    right. exists (response_200 board_url). split; reflexivity.
  - apply (proj2 (proj2 (proj2 (proj2 (get_post_content_cases env_board
                                         default_scraper (py "post") world0))))
             _ (response_200 (py "post")) post_soup post_content);
      reflexivity.
Defined.

(** The body of the post is a quoted reply in a [span] and a few symbols:
    the content returned is the empty string. *)
Lemma get_post_content_empty_witness :
  _get_post_content env_symbols default_scraper board_url world0
  = (Ok [], {| n_get := 1; n_uniform := 0; events := [EGet board_url] |}).
Proof.
  apply (get_post_content_empty env_symbols default_scraper board_url world0
           _ (response_200 board_url) symbols_soup symbols_content).
  - reflexivity.
  - reflexivity.
  - reflexivity.
  - repeat (constructor;
            [first [left; reflexivity | right; reflexivity]|]).
    constructor.
Defined.

End Runs.

(** ** What a run adds to the trace *)

Section TraceFacts.
Import Soup Effects PTTScraper.
Local Open Scope py_scope.

Variable p : Event -> bool.

Lemma count_events_app evs1 evs2 :
  count_events p (evs1 ++ evs2) = count_events p evs1 + count_events p evs2.
Proof. unfold count_events. by rewrite List.filter_app, length_app. Qed.

Lemma adds_mono {A} (m : M A) k k' :
  k <= k' -> adds_at_most p k m -> adds_at_most p k' m.
Proof.
  intros Hk Hm w. destruct (Hm w) as (new & Hnew & Hc).
  exists new. split; [done | lia].
Qed.

Lemma adds_ret {A} (a : A) : adds_at_most p 0 (ret a).
Proof. intros w. exists []. simpl. by rewrite app_nil_r. Qed.

Lemma adds_raise {A} (e : Exn) : adds_at_most p 0 (@raise A e).
Proof. intros w. exists []. simpl. by rewrite app_nil_r. Qed.

Lemma adds_lift {A} (r : Exn + A) : adds_at_most p 0 (lift r).
Proof. destruct r; [apply adds_raise | apply adds_ret]. Qed.

Lemma adds_emit ev : p ev = false -> adds_at_most p 0 (emit ev).
Proof.
  intros Hev w. exists [ev]. simpl. split; [done|].
  unfold count_events. simpl. by rewrite Hev.
Qed.

Lemma adds_bind {A B} (m : M A) (f : A -> M B) k1 k2 :
  adds_at_most p k1 m -> (forall a, adds_at_most p k2 (f a)) ->
  adds_at_most p (k1 + k2) (bind m f).
Proof.
  intros Hm Hf w. unfold bind.
  destruct (Hm w) as (new1 & Hnew1 & Hc1).
  destruct (m w) as [[a|e] w1]; simpl in Hnew1.
  - destruct (Hf a w1) as (new2 & Hnew2 & Hc2).
    exists (new1 ++ new2). rewrite Hnew2, Hnew1, app_assoc.
    split; [done|]. rewrite count_events_app. lia.
  - exists new1. simpl. split; [done | lia].
Qed.

Lemma adds_try_except {A} (m : M A) is_C (h : Exn -> M A) k1 k2 :
  adds_at_most p k1 m -> (forall e, adds_at_most p k2 (h e)) ->
  adds_at_most p (k1 + k2) (try_except m is_C h).
Proof.
  intros Hm Hh w. unfold try_except.
  destruct (Hm w) as (new1 & Hnew1 & Hc1).
  destruct (m w) as [[a|e] w1]; simpl in Hnew1.
  - exists new1. simpl. split; [done | lia].
  - destruct (is_C e).
    + destruct (Hh e w1) as (new2 & Hnew2 & Hc2).
      exists (new1 ++ new2). rewrite Hnew2, Hnew1, app_assoc.
      split; [done|]. rewrite count_events_app. lia.
    + exists new1. simpl. split; [done | lia].
Qed.

(** A handler that logs the exception and returns a value. *)
Lemma adds_log_and_return {A} (a : A) e :
  p (EError e) = false ->
  adds_at_most p 0 (emit (EError e) ;; ret a).
Proof.
  intros Hp. apply (adds_bind _ _ 0 0); [by apply adds_emit|].
  intros _. apply adds_ret.
Qed.

End TraceFacts.

(** ** How much the scraper asks of the network *)

Section ScraperBounds.
Import Soup Effects PTTScraper.
Local Open Scope py_scope.

Variable env : Env.
Variable self : PTTScraper.

Lemma make_request_adds_gets url :
  adds_at_most is_get (Z.to_nat (max_retries self))
    (_make_request env self url).
Proof.
  intros w. unfold _make_request.
  destruct (loop_gets env self url (range (max_retries self)) w)
    as (new & Hnew & Hlen).
  exists new. split; [done|].
  unfold range in Hlen. by rewrite length_seqZ in Hlen.
Qed.

(** The attempt number [a] is followed by a wait only if another attempt
    is left after it. *)
Lemma loop_sleeps url k :
  forall a w, exists new,
    events (_make_request_loop env self url (Z.of_nat <$> seq a k) w).2
    = events w ++ new
    /\ count_events is_sleep new <= Z.to_nat (max_retries self) - 1 - a.
Proof.
  induction k as [|k IH]; intros a w.
  { exists []. simpl. rewrite app_nil_r. split; [done | unfold count_events; simpl; lia]. }
  change (Z.of_nat <$> seq a (S k))
    with (Z.of_nat a :: (Z.of_nat <$> seq (S a) k)).
  destruct (attempt_result env (n_get w) url) as [e|r] eqn:Hr.
  - destruct (isinstance_RequestException e) eqn:He.
    + rewrite (loop_failure env self url _ _ w e) by done.
      destruct (Z.of_nat a <? max_retries self - 1)%Z eqn:Ha;
        [destruct (Qle_bool 0 _)|].
      * match goal with |- context [_make_request_loop _ _ _ _ ?w1] =>
          destruct (IH (S a) w1) as (new & -> & Hnew) end.
        simpl. rewrite <- app_assoc. eexists. split; [done|].
        rewrite count_events_app. apply Z.ltb_lt in Ha.
        unfold count_events at 1. simpl. lia.
      * eexists. split; [done|]. unfold count_events. simpl. lia.
      * match goal with |- context [_make_request_loop _ _ _ _ ?w1] =>
          destruct (IH (S a) w1) as (new & -> & Hnew) end.
        simpl. rewrite <- app_assoc. eexists. split; [done|].
        rewrite count_events_app.
        unfold count_events at 1. simpl. lia.
    + rewrite (loop_propagates env self url _ _ w e) by done.
      exists [EGet url]. split; [done|]. unfold count_events. simpl. lia.
  - rewrite (loop_success env self url _ _ w r) by done.
    exists [EGet url]. split; [done|]. unfold count_events. simpl. lia.
Qed.

Lemma make_request_adds_sleeps url :
  adds_at_most is_sleep (Z.to_nat (max_retries self) - 1)
    (_make_request env self url).
Proof.
  intros w. unfold _make_request. rewrite range_seq.
  destruct (loop_sleeps url (Z.to_nat (max_retries self)) 0 w)
    as (new & Hnew & Hlen).
  exists new. split; [done | lia].
Qed.

Section Pages.

(** A kind of event, of which the fetcher adds at most [k] per page and
    the error log none. *)
Variable p : Event -> bool.
Variable k : nat.
Hypothesis p_error : forall e, p (EError e) = false.
Hypothesis p_fetch : forall url, adds_at_most p k (_make_request env self url).

Lemma get_post_content_adds url :
  adds_at_most p k (_get_post_content env self url).
Proof.
  unfold _get_post_content.
  eapply adds_mono; [|apply (adds_try_except p _ _ _ k 0)]; [lia| |].
  - eapply adds_mono; [|apply (adds_bind p _ _ k 0)]; [lia|apply p_fetch|].
    intros [r|]; [|apply adds_ret].
    destruct (negb (ok r)); [apply adds_ret|].
    apply (adds_bind p _ _ 0 0); [apply adds_lift|].
    intros soup.
    destruct (find (has_attr (py "id") (py "main-content")) soup);
      apply adds_ret.
  - intros e. by apply adds_log_and_return.
Qed.

Lemma extract_post_info_adds post_div :
  adds_at_most p 0 (_extract_post_info env post_div).
Proof.
  unfold _extract_post_info.
  apply (adds_try_except p _ _ _ 0 0);
    [|intros e; by apply adds_log_and_return].
  destruct (find (is_div_with_class (py "title")) post_div) as [t|];
    [|apply adds_ret].
  destruct (find (name_is (py "a")) t) as [a|]; [|apply adds_ret].
  apply (adds_bind p _ _ 0 0); [|intros href; apply adds_ret].
  unfold getitem. destruct (attrs_of a !! py "href");
    [apply adds_ret | apply adds_raise].
Qed.

Lemma posts_loop_adds post_divs :
  forall posts_data,
    adds_at_most p (k * length post_divs)
      (_posts_loop env self post_divs posts_data).
Proof.
  induction post_divs as [|d rest IH]; intros acc.
  { eapply adds_mono; [|apply adds_ret]. lia. }
  simpl. eapply adds_mono; [|apply (adds_bind p _ _ k (k * length rest))];
    [lia| |intros a; apply IH].
  eapply adds_mono; [|apply (adds_try_except p _ _ _ k 0)]; [lia| |].
  - eapply adds_mono; [|apply (adds_bind p _ _ 0 k)];
      [lia|apply extract_post_info_adds|].
    intros [info|]; [|eapply adds_mono; [|apply adds_ret]; lia].
    destruct (bool_decide (info = ∅));
      [eapply adds_mono; [|apply adds_ret]; lia|].
    eapply adds_mono; [|apply (adds_bind p _ _ 0 k)]; [lia| |].
    { unfold getitem. destruct (info !! py "link");
        [apply adds_ret | apply adds_raise]. }
    intros link.
    eapply adds_mono; [|apply (adds_bind p _ _ k 0)];
      [lia|apply get_post_content_adds|].
    intros content. apply adds_ret.
  - intros e. by apply adds_log_and_return.
Qed.

Lemma get_posts_adds url num_posts :
  (0 <= num_posts)%Z ->
  adds_at_most p (k * (1 + Z.to_nat num_posts))
    (get_ptt_stock_posts env self url num_posts).
Proof.
  intros Hn. unfold get_ptt_stock_posts.
  eapply adds_mono;
    [|apply (adds_try_except p _ _ _ (k + k * Z.to_nat num_posts) 0)];
    [lia| |intros e; by apply adds_log_and_return].
  apply adds_bind; [apply p_fetch|].
  intros [r|]; [|eapply adds_mono; [|apply adds_ret]; lia].
  destruct (negb (ok r)); [eapply adds_mono; [|apply adds_ret]; lia|].
  eapply adds_mono; [|apply (adds_bind p _ _ 0 (k * Z.to_nat num_posts))];
    [lia|apply adds_lift|].
  intros soup.
  eapply adds_mono; [|apply posts_loop_adds].
  rewrite slice_to_length by done. nia.
Qed.

End Pages.

(** X1.  For [num_posts >= 0], one call of [get_ptt_stock_posts] sends at
    most [max_retries * (1 + num_posts)] requests (the listing page and one
    page per post, each tried at most [max_retries] times) and waits at
    most [(max_retries - 1) * (1 + num_posts)] times. *)
Theorem get_posts_effort (url : str) (num_posts : Z) (w : World) :
  (0 <= num_posts)%Z ->
  exists new,
    events (get_ptt_stock_posts env self url num_posts w).2 = events w ++ new
    /\ count_events is_get new
       <= Z.to_nat (max_retries self) * (1 + Z.to_nat num_posts)
    /\ count_events is_sleep new
       <= (Z.to_nat (max_retries self) - 1) * (1 + Z.to_nat num_posts).
Proof.
  intros Hn.
  destruct (get_posts_adds is_get (Z.to_nat (max_retries self))
              (fun _ => eq_refl) make_request_adds_gets url num_posts Hn w)
    as (new & Hnew & Hgets).
  destruct (get_posts_adds is_sleep (Z.to_nat (max_retries self) - 1)
              (fun _ => eq_refl) make_request_adds_sleeps url num_posts Hn w)
    as (new' & Hnew' & Hsleeps).
  rewrite Hnew in Hnew'. apply app_inv_head in Hnew' as <-.
  by exists new.
Qed.

End ScraperBounds.

(** ** Edge behaviour of the fetcher and of the extractors *)

Section ScraperEdges.
Import Soup Effects PTTScraper.
Local Open Scope py_scope.

Variable env : Env.
Variable self : PTTScraper.

Lemma loop_returns_last url attempts :
  forall w r w',
    _make_request_loop env self url attempts w = (Ok (Some r), w') ->
    exists i, n_get w' = S i /\ n_get w <= i
              /\ http_get env i url = inr r /\ ok r = true.
Proof.
  induction attempts as [|a rest IH]; intros w r w'; [done|].
  destruct (attempt_result env (n_get w) url) as [e|r0] eqn:Hr.
  - destruct (isinstance_RequestException e) eqn:He.
    + rewrite (loop_failure env self url a rest w e) by done.
      destruct (a <? max_retries self - 1)%Z;
        [destruct (Qle_bool 0 _)|]; [|done|];
        intros H; destruct (IH _ _ _ H) as (i & Hi & Hle & Hget & Hok);
        simpl in Hle; exists i; repeat split; try done; lia.
    + by rewrite (loop_propagates env self url a rest w e).
  - rewrite (loop_success env self url a rest w r0) by done.
    intros [= -> <-]. exists (n_get w). simpl.
    unfold attempt_result in Hr.
    destruct (http_get env (n_get w) url) as [|r1]; [done|].
    destruct (ok r1) eqn:Hok; [|done]. injection Hr as ->.
    by repeat split.
Qed.

(** X2.  A response that [_make_request] returns is the answer of the
    network to the last request it sent, and its status is outside
    400..599: in the callers, [if not response] holds for [None] only. *)
Theorem make_request_response (url : str) (w w' : World) (r : Response) :
  _make_request env self url w = (Ok (Some r), w') ->
  exists i, n_get w' = S i /\ n_get w <= i
            /\ http_get env i url = inr r
            /\ ((status_code r < 400)%Z \/ (600 <= status_code r)%Z).
Proof.
  intros H. destruct (loop_returns_last _ _ _ _ _ H)
    as (i & Hi & Hle & Hget & Hok).
  exists i. repeat split; try done.
  unfold ok in Hok. apply negb_true_iff, andb_false_iff in Hok.
  destruct Hok as [?%Z.leb_gt | ?%Z.ltb_ge]; [left | right]; lia.
Qed.

Lemma range_cons n : (0 < n)%Z -> range n = 0%Z :: seqZ 1 (n - 1).
Proof. intros Hn. unfold range. by rewrite seqZ_cons by done. Qed.

(** X3.  An exception of [session.get] that is not a [RequestException] is
    not retried.  [_make_request] raises it after that one request, with
    no warning and no wait; [get_ptt_stock_posts] then returns the empty
    list and [_get_post_content] the reply of line 134, each after logging
    the exception once. *)
Theorem unexpected_exception_not_retried (url : str) (num_posts : Z)
    (w : World) (e : Exn) :
  (0 < max_retries self)%Z ->
  http_get env (n_get w) url = inl e ->
  isinstance_RequestException e = false ->
  let w1 := {| n_get := S (n_get w); n_uniform := n_uniform w;
               events := events w ++ [EGet url] |} in
  let w2 := {| n_get := S (n_get w); n_uniform := n_uniform w;
               events := (events w ++ [EGet url]) ++ [EError e] |} in
  _make_request env self url w = (Raise e, w1)
  /\ get_ptt_stock_posts env self url num_posts w = (Ok [], w2)
  /\ _get_post_content env self url w = (Ok error_extracting_content, w2).
Proof.
  intros Hmax Hget He w1 w2.
  assert (_make_request env self url w = (Raise e, w1)) as Hreq.
  { unfold _make_request. rewrite range_cons by done.
    apply loop_propagates; [|done]. unfold attempt_result. by rewrite Hget. }
  split; [done|]. split.
  - unfold get_ptt_stock_posts.
    erewrite try_except_caught
      by (erewrite bind_raise by exact Hreq; reflexivity).
    reflexivity.
  - by rewrite (get_post_content_fetch_raises env self url w w1 e Hreq).
Qed.

(** X4.  With a wait of negative length the retries are lost.  If at least
    two attempts are configured, the first attempt fails and
    [retry_delay + random.uniform(1, 3)] is negative, [time.sleep] raises
    [ValueError] and [_make_request] raises it after one request and one
    warning; [get_ptt_stock_posts] then returns the empty list. *)
Theorem negative_wait_gives_up (url : str) (num_posts : Z) (w : World)
    (e : Exn) :
  (2 <= max_retries self)%Z ->
  attempt_fails env (n_get w) url e ->
  (delay env self (n_uniform w) < 0)%Q ->
  let err := ValueError (py "sleep length must be non-negative") in
  let w1 := {| n_get := S (n_get w); n_uniform := S (n_uniform w);
               events := events w ++
                         [EGet url; EWarning 1 (max_retries self) e] |} in
  _make_request env self url w = (Raise err, w1)
  /\ get_ptt_stock_posts env self url num_posts w
     = (Ok [], {| n_get := n_get w1; n_uniform := n_uniform w1;
                  events := events w1 ++ [EError err] |}).
Proof.
  intros Hmax Hfail Hneg err w1.
  assert (_make_request env self url w = (Raise err, w1)) as Hreq.
  { unfold _make_request. rewrite range_cons by lia.
    rewrite (loop_failure env self url _ _ w e) by done.
    replace (0 <? max_retries self - 1)%Z with true
      by (symmetry; apply Z.ltb_lt; lia).
    replace (Qle_bool 0 (delay env self (n_uniform w))) with false; [done|].
    symmetry. apply not_true_is_false. intros H%Qle_bool_iff.
    by apply Qlt_not_le in Hneg. }
  split; [done|].
  unfold get_ptt_stock_posts.
  erewrite try_except_caught
    by (erewrite bind_raise by exact Hreq; reflexivity).
  reflexivity.
Qed.

(** X5.  A container whose title link has no [href] is skipped:
    [_extract_post_info] returns [None] and logs the [KeyError]. *)
Theorem extract_post_info_no_href (post_div a : Node) (w : World) :
  title_link post_div = Some a ->
  attrs_of a !! py "href" = None ->
  _extract_post_info env post_div w
  = (Ok None,
     {| n_get := n_get w; n_uniform := n_uniform w;
        events := events w ++ [EError (KeyError (py "href"))] |}).
Proof.
  unfold title_link, _extract_post_info, try_except.
  destruct (find (is_div_with_class (py "title")) post_div) as [t|]; [|done].
  intros -> Hh. unfold bind at 1, getitem. by rewrite Hh.
Qed.

(** X6.  The defaults of a container without author or date element go
    through the sanitizer, which deletes the slash: the field is ["NA"],
    not ["N/A"]. *)
Theorem extract_post_info_defaults (post_div : Node) (w : World) :
  extractable post_div = true ->
  exists info,
    _extract_post_info env post_div w = (Ok (Some info), w)
    /\ (find (is_div_with_class (py "author")) post_div = None ->
        info !! py "author" = Some (py "NA"))
    /\ (find (is_div_with_class (py "date")) post_div = None ->
        info !! py "date" = Some (py "NA")).
Proof.
  intros Hd.
  destruct (extract_post_info_entry env post_div w Hd)
    as (info & Hrun & _ & Hentry & _).
  exists info. split; [done|].
  destruct (Hentry []) as (a & href & _ & _ & _ & _ & Ha & Hdate & _).
  rewrite lookup_insert_ne in Ha by done.
  rewrite lookup_insert_ne in Hdate by done.
  unfold field_text in Ha, Hdate.
  split; intros Hnone; rewrite Hnone in *; [exact Ha | exact Hdate].
Qed.

End ScraperEdges.

(** ** The container after [decompose] *)

Section DecomposeFacts.
Import Soup PTTScraper.

Lemma Node_nested_ind (P : Node -> Prop) :
  (forall s, P (NavigableString s)) ->
  (forall name classes attrs contents,
      Forall P contents -> P (Tag name classes attrs contents)) ->
  forall x, P x.
Proof.
  intros Hs Ht. fix IH 1. intros [s | n c a cs]; [apply Hs|].
  apply Ht. induction cs as [|x cs IHcs]; constructor; [apply IH | apply IHcs].
Qed.

Lemma descendants_Tag name classes attrs contents :
  descendants (Tag name classes attrs contents)
  = flat_map (fun c => c :: descendants c) contents.
Proof.
  simpl. induction contents as [|c rest IH]; [done|].
  simpl. by rewrite IH.
Qed.

Lemma decompose_all_Tag p name classes attrs contents :
  decompose_all p (Tag name classes attrs contents)
  = Tag name classes attrs
      (flat_map (fun c => if p c then [] else [decompose_all p c]) contents).
Proof.
  simpl. f_equal. induction contents as [|c rest IH]; [done|].
  simpl. rewrite IH. by destruct (p c).
Qed.

Lemma is_div_or_span_decompose p x :
  is_div_or_span (decompose_all p x) = is_div_or_span x.
Proof. by destruct x. Qed.

Lemma decompose_all_no_match x :
  find_all is_div_or_span (decompose_all is_div_or_span x) = [].
Proof.
  unfold find_all. induction x as [s | n c a cs IH] using Node_nested_ind.
  { done. }
  rewrite decompose_all_Tag, descendants_Tag.
  induction IH as [|x cs Hx Hcs IHcs]; [done|].
  simpl. destruct (is_div_or_span x) eqn:Hp; [exact IHcs|].
  simpl. rewrite is_div_or_span_decompose, Hp.
  by rewrite List.filter_app, Hx, IHcs.
Qed.

Lemma decompose_all_unchanged x :
  find_all is_div_or_span x = [] -> decompose_all is_div_or_span x = x.
Proof.
  unfold find_all. induction x as [s | n c a cs IH] using Node_nested_ind.
  { done. }
  rewrite decompose_all_Tag, descendants_Tag. intros Hnone. f_equal.
  induction IH as [|x cs Hx Hcs IHcs]; [done|].
  simpl in Hnone. destruct (is_div_or_span x) eqn:Hp; [done|].
  rewrite List.filter_app in Hnone. apply app_eq_nil in Hnone as [H1 H2].
  simpl. rewrite Hp, (Hx H1), (IHcs H2). done.
Qed.

(** X7.  After the loop of lines 127-128 no [div] and no [span] is left
    below the container, and a container that had none below it is left
    as it was. *)
Theorem decompose_all_clears (content_div : Node) :
  find_all is_div_or_span (decompose_all is_div_or_span content_div) = []
  /\ (find_all is_div_or_span content_div = [] ->
      decompose_all is_div_or_span content_div = content_div).
Proof.
  split; [apply decompose_all_no_match | apply decompose_all_unchanged].
Qed.

End DecomposeFacts.

(** ** More on the sanitizer *)

Section SanitizerMore.
Import Text.
Local Open Scope N_scope.

Variable ua : N -> bool.

Lemma filter_kept_sub_ws b s :
  List.filter (fun c => visible c && allowed ua c) (sub_ws_from b s)
  = List.filter (fun c => visible c && allowed ua c) s.
Proof.
  revert b. induction s as [|c r IH]; intros b; simpl; [done|].
  unfold visible at 2. destruct (is_space c) eqn:Hc; simpl.
  - destruct b; [apply IH|]. simpl. apply IH.
  - unfold visible at 1. rewrite Hc. simpl. by rewrite IH.
Qed.

Lemma filter_visible_lstrip s :
  List.filter visible (lstrip s) = List.filter visible s.
Proof.
  induction s as [|c r IH]; simpl; [done|].
  unfold visible at 2. destruct (is_space c) eqn:Hc; simpl; [done|].
  unfold visible at 1. by rewrite Hc.
Qed.

Lemma filter_visible_rstrip s :
  List.filter visible (rstrip s) = List.filter visible s.
Proof.
  induction s as [|c r IH]; simpl; [done|]. rewrite <- IH.
  destruct (rstrip r) as [|d k]; [|done].
  unfold visible. destruct (is_space c) eqn:Hc; simpl; [done|].
  by rewrite Hc.
Qed.

Lemma filter_filter_and {A} (f g : A -> bool) (l : list A) :
  List.filter f (List.filter g l) = List.filter (fun x => f x && g x) l.
Proof.
  induction l as [|x l IH]; simpl; [done|].
  destruct (g x); simpl; [|by rewrite andb_false_r].
  rewrite andb_true_r. destruct (f x); by rewrite IH.
Qed.

(** X8.  The sanitizer loses nothing but whitespace and the characters
    outside the class of line 142: the characters of its result that are
    not whitespace are those of the text that are in the class, in the
    same order. *)
Theorem clean_text_keeps_allowed (x : str) :
  List.filter visible (_clean_text ua x)
  = List.filter (fun c => visible c && allowed ua c) x.
Proof.
  unfold _clean_text, strip, sub_disallowed, sub_ws.
  rewrite filter_visible_rstrip, filter_visible_lstrip.
  rewrite filter_filter_and. apply filter_kept_sub_ws.
Qed.

Lemma lstrip_length s : (length (lstrip s) <= length s)%nat.
Proof.
  induction s as [|c r IH]; simpl; [lia|].
  destruct (is_space c); simpl; lia.
Qed.

Lemma rstrip_length s : (length (rstrip s) <= length s)%nat.
Proof.
  induction s as [|c r IH]; simpl; [lia|].
  destruct (rstrip r); [destruct (is_space c)|]; simpl in *; lia.
Qed.

(** X9.  The sanitizer never makes a text longer. *)
Theorem clean_text_length (x : str) :
  (length (_clean_text ua x) <= length x)%nat.
Proof.
  unfold _clean_text, strip, sub_disallowed, sub_ws.
  pose proof (rstrip_length (lstrip (List.filter (allowed ua)
                                       (sub_ws_from false x)))).
  pose proof (lstrip_length (List.filter (allowed ua) (sub_ws_from false x))).
  pose proof (filter_length_le (allowed ua) (sub_ws_from false x)).
  pose proof (sub_ws_from_length false x).
  lia.
Qed.

(** X10.  The sanitizer is idempotent at a text exactly when its result
    for that text is single-spaced, and a second application always gives
    a text on which it is idempotent: applied three times it gives what it
    gives applied twice. *)
Theorem clean_text_stabilises (x : str) :
  (_clean_text ua (_clean_text ua x) = _clean_text ua x
   <-> single_spaced false (_clean_text ua x) = true)
  /\ _clean_text ua (_clean_text ua (_clean_text ua x))
     = _clean_text ua (_clean_text ua x).
Proof.
  split; [apply clean_text_idempotent_iff|].
  apply clean_text_idempotent_iff.
  rewrite (clean_text_twice ua x). apply single_spaced_sub_ws.
Qed.

(** X11.  On a text without characters outside the class of line 142 the
    two substitutions do not interfere: the result is single-spaced and
    the sanitizer is idempotent. *)
Theorem clean_text_idempotent_on_allowed (x : str) :
  Forall (fun c => allowed ua c = true) x ->
  single_spaced false (_clean_text ua x) = true
  /\ _clean_text ua (_clean_text ua x) = _clean_text ua x.
Proof.
  intros Hx.
  assert (single_spaced false (_clean_text ua x) = true) as Hspaced.
  { unfold _clean_text. rewrite sub_disallowed_id.
    - unfold strip.
      eapply single_spaced_rstrip, single_spaced_lstrip,
        single_spaced_sub_ws.
    - apply sub_ws_from_Forall; [|done]. by apply is_space_allowed. }
  split; [done|]. by apply clean_text_idempotent_iff.
Qed.

End SanitizerMore.

(** ** The news feed *)

Section FeedFacts.
Import Effects PTTScraper Feed.
Local Open Scope py_scope.

Lemma hasattr_true e name :
  hasattr e name = true -> exists v, e !! name = Some v.
Proof. unfold hasattr. intros [v Hv]%bool_decide_eq_true. by exists v. Qed.

Lemma hasattr_false e name : hasattr e name = false -> e !! name = None.
Proof.
  unfold hasattr. intros H%bool_decide_eq_false.
  destruct (e !! name) eqn:He; [|done]. exfalso. apply H. by eexists.
Qed.

Lemma optional_attribute e name w :
  (if hasattr e name then getattr e name else ret []) w
  = (Ok (default [] (e !! name)), w).
Proof.
  destruct (hasattr e name) eqn:Hh.
  - apply hasattr_true in Hh as [v Hv]. unfold getattr. by rewrite Hv.
  - apply hasattr_false in Hh. by rewrite Hh.
Qed.

Lemma news_loop_step e rest news_items w :
  well_formed e = true ->
  _news_loop (e :: rest) news_items w
  = _news_loop rest (news_items ++ [news_item e]) w.
Proof.
  unfold well_formed. intros [Ht Hl]%andb_true_iff.
  apply hasattr_true in Ht as [t Ht]. apply hasattr_true in Hl as [l Hl].
  simpl. unfold bind at 1, getattr at 1. rewrite Ht. simpl.
  unfold bind at 1. rewrite optional_attribute.
  unfold bind at 1, getattr at 1. rewrite Hl. simpl.
  unfold bind at 1. rewrite optional_attribute.
  unfold news_item. by rewrite Ht, Hl.
Qed.

Lemma news_loop_raises e rest news_items w :
  well_formed e = false ->
  _news_loop (e :: rest) news_items w
  = (Raise (AttributeError (missing_attribute e)), w).
Proof.
  unfold well_formed, missing_attribute. intros H.
  simpl. unfold bind at 1, getattr at 1.
  destruct (hasattr e (py "title")) eqn:Ht.
  - apply hasattr_true in Ht as [t Ht]. rewrite Ht. simpl.
    unfold bind at 1. rewrite optional_attribute.
    unfold bind at 1, getattr at 1.
    simpl in H. apply hasattr_false in H. by rewrite H.
  - apply hasattr_false in Ht. by rewrite Ht.
Qed.

Lemma news_loop_all entries :
  forall news_items w,
    Forall (fun e => well_formed e = true) entries ->
    _news_loop entries news_items w
    = (Ok (news_items ++ (news_item <$> entries)), w).
Proof.
  induction entries as [|e rest IH]; intros acc w Hall.
  { simpl. by rewrite app_nil_r. }
  inversion Hall as [|? ? He Hrest]; subst.
  rewrite news_loop_step by done. rewrite IH by done.
  by rewrite <- app_assoc.
Qed.

Lemma news_loop_first_bad good bad rest :
  forall news_items w,
    Forall (fun e => well_formed e = true) good ->
    well_formed bad = false ->
    _news_loop (good ++ bad :: rest) news_items w
    = (Raise (AttributeError (missing_attribute bad)), w).
Proof.
  induction good as [|e good IH]; intros acc w Hgood Hbad.
  { by apply news_loop_raises. }
  inversion Hgood as [|? ? He Hrest]; subst.
  rewrite <- app_comm_cons, news_loop_step by done. by apply IH.
Qed.

Lemma first_bad_entry (entries : list entry) :
  Forall (fun e => well_formed e = true) entries
  \/ exists good bad rest,
       entries = good ++ bad :: rest
       /\ Forall (fun e => well_formed e = true) good
       /\ well_formed bad = false.
Proof.
  induction entries as [|e rest IH]; [by left|].
  destruct (well_formed e) eqn:He.
  - destruct IH as [IH | (good & bad & rest' & -> & Hgood & Hbad)].
    + left. by constructor.
    + right. exists (e :: good), bad, rest'.
      split; [done|]. split; [by constructor | done].
  - right. by exists [], e, rest.
Qed.

Lemma news_item_four_fields e : has_four_fields (news_item e).
Proof.
  unfold has_four_fields, news_item.
  repeat eexists; by simplify_map_eq.
Qed.

Lemma get_rss_news_items_aux (entries : list entry) (num_items : Z)
    (w : World) :
  Forall (fun e => well_formed e = true) (slice_to entries num_items) ->
  get_rss_news (inr entries) num_items w
  = (Ok (news_item <$> slice_to entries num_items), w).
Proof.
  intros Hall. unfold get_rss_news. apply try_except_ok.
  erewrite bind_ok by reflexivity. by rewrite news_loop_all.
Qed.

(** X12.  When each of the first [num_items] entries of the feed has a
    title and a link, [get_rss_news] returns one item for each of them, in
    the order of the feed, with the empty string for an absent summary or
    date. *)
Theorem get_rss_news_items (entries : list entry) (num_items : Z)
    (w : World) :
  Forall (fun e => well_formed e = true) (slice_to entries num_items) ->
  get_rss_news (inr entries) num_items w
  = (Ok (news_item <$> slice_to entries num_items), w).
Proof.
  intros Hall. unfold get_rss_news. apply try_except_ok.
  erewrite bind_ok by reflexivity.
  by rewrite (news_loop_all (slice_to entries num_items) [] w Hall).
Qed.

(** X13.  One entry without title or link among the first [num_items]
    loses them all: [get_rss_news] returns the empty list, also when the
    entries before it were complete, and logs the [AttributeError]. *)
Theorem get_rss_news_all_or_nothing (entries good rest : list entry)
    (bad : entry) (num_items : Z) (w : World) :
  slice_to entries num_items = good ++ bad :: rest ->
  Forall (fun e => well_formed e = true) good ->
  well_formed bad = false ->
  get_rss_news (inr entries) num_items w
  = (Ok [],
     {| n_get := n_get w; n_uniform := n_uniform w;
        events := events w
                  ++ [EError (AttributeError (missing_attribute bad))] |}).
Proof.
  intros Hsplit Hgood Hbad. unfold get_rss_news.
  erewrite try_except_caught
    by (erewrite bind_ok by reflexivity; rewrite Hsplit;
        by apply news_loop_first_bad).
  reflexivity.
Qed.

(** X14.  For [num_items >= 0], [get_rss_news] returns, without raising, at
    most [num_items] items, each with the four keys [title], [summary],
    [link] and [published]. *)
Theorem get_rss_news_bounded (parsed : Exn + list entry) (num_items : Z)
    (w : World) :
  (0 <= num_items)%Z ->
  exists items w',
    get_rss_news parsed num_items w = (Ok items, w')
    /\ (Z.of_nat (length items) <= num_items)%Z
    /\ Forall has_four_fields items.
Proof.
  intros Hn. destruct parsed as [e | entries].
  { eexists [], _. split.
    { unfold get_rss_news. erewrite try_except_caught; reflexivity. }
    split; [simpl; lia | constructor]. }
  destruct (first_bad_entry (slice_to entries num_items))
    as [Hall | (good & bad & rest & Hsplit & Hgood & Hbad)].
  - eexists _, _. split; [by apply get_rss_news_items_aux|].
    split.
    + rewrite length_fmap, slice_to_length by done. lia.
    + apply Forall_fmap, Forall_forall. intros e _.
      apply news_item_four_fields.
  - eexists [], _. split.
    { unfold get_rss_news.
      erewrite try_except_caught
        by (erewrite bind_ok by reflexivity; rewrite Hsplit;
            by apply news_loop_first_bad).
      reflexivity. }
    split; [simpl; lia | constructor].
Qed.

End FeedFacts.

(** ** The list of listed companies and the search in it *)

Section CompanyFacts.
Import Soup Effects PTTScraper PyStr ODict Twse StockAnalyzer.
Local Open Scope py_scope.

Variable env : Env.
Variable unicode_isdigit : N -> bool.

Lemma rows_loop_step row rest stock_dict w :
  _rows_loop unicode_isdigit (row :: rest) stock_dict w
  = _rows_loop unicode_isdigit rest
      (match row_company unicode_isdigit row with
       | Some item => setitem stock_dict item.1 item.2
       | None => stock_dict
       end) w.
Proof.
  simpl. unfold row_company, bind, getindex.
  destruct (find_all (name_is (py "td")) row) as [|c0 [|c1 [|c2 [|c3 cols]]]];
    try done.
  simpl. by destruct (truthy _ && truthy _ && isdigit _ _).
Qed.

Lemma rows_loop_collect rows :
  forall stock_dict w,
    _rows_loop unicode_isdigit rows stock_dict w
    = (Ok (collect (omap (row_company unicode_isdigit) rows) stock_dict), w).
Proof.
  induction rows as [|row rest IH]; intros d w; [done|].
  rewrite rows_loop_step, IH. simpl.
  by destruct (row_company unicode_isdigit row).
Qed.

(** The fetch when the request is answered, whatever the status, and the
    page is parsed. *)
Lemma fetch_twse_parsed w r soup :
  http_get env (n_get w) twse_url = inr r ->
  html_parser env (text r) = inr soup ->
  fetch_twse_stock_list env unicode_isdigit w
  = (Ok (collect (page_companies unicode_isdigit soup) []),
     {| n_get := S (n_get w); n_uniform := n_uniform w;
        events := events w ++ [EGet twse_url] |}).
Proof.
  intros Hget Hparse. unfold fetch_twse_stock_list. apply try_except_ok.
  unfold bind at 1, requests_get. rewrite Hget.
  unfold bind at 1, BeautifulSoup. rewrite Hparse. simpl.
  by rewrite rows_loop_collect.
Qed.

Lemma fetch_twse_cases w :
  (exists soup w',
      fetch_twse_stock_list env unicode_isdigit w
      = (Ok (collect (page_companies unicode_isdigit soup) []), w'))
  \/ (exists w', fetch_twse_stock_list env unicode_isdigit w = (Ok [], w')).
Proof.
  destruct (http_get env (n_get w) twse_url) as [e|r] eqn:Hget.
  { right. eexists. unfold fetch_twse_stock_list.
    erewrite try_except_caught; [reflexivity|].
    unfold bind at 1, requests_get. by rewrite Hget. }
  destruct (html_parser env (text r)) as [e|soup] eqn:Hparse.
  { right. eexists. unfold fetch_twse_stock_list.
    erewrite try_except_caught; [reflexivity|].
    unfold bind at 1, requests_get. rewrite Hget.
    unfold bind at 1, BeautifulSoup. by rewrite Hparse. }
  left. eexists _, _. by apply (fetch_twse_parsed w r soup).
Qed.

(** *** The dictionary *)

Lemma get_setitem d k v k' :
  get (setitem d k v) k' = if bool_decide (k = k') then Some v else get d k'.
Proof.
  induction d as [|[k0 v0] d IH]; simpl.
  { done. }
  destruct (bool_decide (k0 = k)) eqn:H0; simpl.
  - apply bool_decide_eq_true in H0 as ->. by destruct (bool_decide (k = k')).
  - rewrite IH. apply bool_decide_eq_false in H0.
    destruct (bool_decide (k0 = k')) eqn:H1; [|done].
    apply bool_decide_eq_true in H1 as ->.
    by rewrite bool_decide_eq_false_2 by done.
Qed.

Lemma setitem_keys d k v :
  (setitem d k v).*1 = if bool_decide (k ∈ d.*1) then d.*1 else d.*1 ++ [k].
Proof.
  induction d as [|[k0 v0] d IH]; [done|].
  cbn [setitem]. destruct (bool_decide (k0 = k)) eqn:Hk0; csimpl.
  - apply bool_decide_eq_true in Hk0 as ->.
    rewrite bool_decide_eq_true_2; [done | apply elem_of_cons; by left].
  - rewrite IH. apply bool_decide_eq_false in Hk0.
    destruct (bool_decide (k ∈ d.*1)) eqn:Hkd.
    + apply bool_decide_eq_true in Hkd.
      rewrite bool_decide_eq_true_2; [done | apply elem_of_cons; by right].
    + apply bool_decide_eq_false in Hkd.
      rewrite bool_decide_eq_false_2; [done|].
      intros [?|?]%elem_of_cons; congruence.
Qed.

Lemma setitem_NoDup d k v : NoDup d.*1 -> NoDup (setitem d k v).*1.
Proof.
  intros Hd. rewrite setitem_keys.
  destruct (bool_decide (k ∈ d.*1)) eqn:Hkd; [done|].
  apply bool_decide_eq_false in Hkd.
  apply NoDup_app. repeat split; [done | | apply NoDup_singleton].
  intros x Hx ->%list_elem_of_singleton. done.
Qed.

Lemma setitem_Forall (P : str * str -> Prop) d k v :
  P (k, v) -> Forall P d -> Forall P (setitem d k v).
Proof.
  intros Hkv. induction 1 as [|[k0 v0] d H0 Hd IH]; simpl.
  { by repeat constructor. }
  destruct (bool_decide (k0 = k)); by constructor.
Qed.

Lemma collect_invariant (P : str * str -> Prop) pairs :
  forall d,
    Forall P pairs -> NoDup d.*1 -> Forall P d ->
    NoDup (collect pairs d).*1 /\ Forall P (collect pairs d).
Proof.
  induction pairs as [|[k v] pairs IH]; intros d Hpairs Hnd Hd; [done|].
  inversion Hpairs; subst. simpl. apply IH; [done| |].
  - by apply setitem_NoDup.
  - by apply setitem_Forall.
Qed.

Lemma collect_get pairs :
  forall d name,
    get (collect pairs d) name
    = match last (List.filter (fun item => bool_decide (item.1 = name)) pairs)
      with
      | Some item => Some item.2
      | None => get d name
      end.
Proof.
  induction pairs as [|[k v] pairs IH]; intros d name; [done|].
  simpl. rewrite IH, get_setitem.
  destruct (bool_decide (k = name)) eqn:Hk; [|done].
  destruct (List.filter _ pairs) as [|item l] eqn:Hf; [done|].
  rewrite !last_cons. by destruct (last l).
Qed.

Lemma strip_strip s : Text.strip (Text.strip s) = Text.strip s.
Proof.
  unfold Text.strip at 1.
  rewrite lstrip_id by apply strip_head.
  apply rstrip_id, strip_last.
Qed.

Lemma row_company_ok row item :
  row_company unicode_isdigit row = Some item ->
  company_ok unicode_isdigit item.
Proof.
  unfold row_company, company_ok.
  destruct (_ !! 2) as [c2|]; [|done]. destruct (_ !! 3) as [c3|]; [|done].
  destruct (truthy (Text.strip (get_text c2))) eqn:Hc; [|done].
  destruct (truthy (Text.strip (get_text c3))) eqn:Hn; [|done].
  unfold isdigit. rewrite Hc. simpl.
  destruct (forallb _ _) eqn:Hd; [|done].
  intros [= <-]. simpl. rewrite !strip_strip.
  repeat split; try done.
  - intros H. by rewrite H in Hn.
  - intros H. by rewrite H in Hc.
Qed.

Lemma page_companies_ok soup :
  Forall (company_ok unicode_isdigit) (page_companies unicode_isdigit soup).
Proof.
  unfold page_companies. apply Forall_forall. intros item Hin.
  apply list_elem_of_omap in Hin as (row & _ & Hrow).
  by eapply row_company_ok.
Qed.

Lemma fetch_twse_invariant w d w' :
  fetch_twse_stock_list env unicode_isdigit w = (Ok d, w') ->
  NoDup d.*1 /\ Forall (company_ok unicode_isdigit) d.
Proof.
  destruct (fetch_twse_cases w) as [(soup & w1 & ->) | (w1 & ->)];
    intros [= <- _].
  - apply collect_invariant;
      [apply page_companies_ok | constructor | constructor].
  - split; constructor.
Qed.

(** X15.  [fetch_twse_stock_list] never raises, and in the dictionary it
    returns every name is there once, is non-empty and stripped, and every
    code is non-empty, stripped and made of digits only. *)
Theorem fetch_twse_stock_list_sound (w : World) :
  exists d w',
    fetch_twse_stock_list env unicode_isdigit w = (Ok d, w')
    /\ NoDup d.*1
    /\ Forall (company_ok unicode_isdigit) d.
Proof.
  destruct (fetch_twse_stock_list env unicode_isdigit w) as [[d|e] w'] eqn:H.
  - exists d, w'. split; [done|]. by eapply fetch_twse_invariant.
  - exfalso.
    by destruct (fetch_twse_cases w) as [(? & ? & H') | (? & H')];
      rewrite H' in H.
Qed.

(** X16.  Once the page is fetched (the status of the answer is not looked
    at) and parsed, the code stored under a name is that of the last row,
    the first row of the page apart, that stands for a company of that
    name; a name of no such row is not in the dictionary. *)
Theorem fetch_twse_stock_list_lookup (w : World) (r : Response)
    (soup : Node) (name : str) :
  http_get env (n_get w) twse_url = inr r ->
  html_parser env (text r) = inr soup ->
  exists d w',
    fetch_twse_stock_list env unicode_isdigit w = (Ok d, w')
    /\ get d name
       = snd <$> last (List.filter (fun item => bool_decide (item.1 = name))
                         (page_companies unicode_isdigit soup)).
Proof.
  intros Hget Hparse. eexists _, _.
  split; [by apply (fetch_twse_parsed w r soup)|].
  rewrite collect_get. by destruct (last _).
Qed.

(** X17.  When the request or the parser raises, and when the page has no
    row after its first, [fetch_twse_stock_list] returns the empty
    dictionary; in the first two cases it logs the exception. *)
Theorem fetch_twse_stock_list_empty (w : World) :
  let w1 := {| n_get := S (n_get w); n_uniform := n_uniform w;
               events := events w ++ [EGet twse_url] |} in
  (forall e,
      http_get env (n_get w) twse_url = inl e
      \/ (exists r, http_get env (n_get w) twse_url = inr r
                    /\ html_parser env (text r) = inl e) ->
      fetch_twse_stock_list env unicode_isdigit w
      = (Ok [], {| n_get := n_get w1; n_uniform := n_uniform w1;
                   events := events w1 ++ [EError e] |}))
  /\ (forall r soup,
        http_get env (n_get w) twse_url = inr r ->
        html_parser env (text r) = inr soup ->
        length (find_all (name_is (py "tr")) soup) <= 1 ->
        fetch_twse_stock_list env unicode_isdigit w = (Ok [], w1)).
Proof.
  intros w1. split.
  - intros e [Hget | (r & Hget & Hparse)]; unfold fetch_twse_stock_list.
    + erewrite try_except_caught; [reflexivity|].
      unfold bind at 1, requests_get. by rewrite Hget.
    + erewrite try_except_caught; [reflexivity|].
      unfold bind at 1, requests_get. rewrite Hget.
      unfold bind at 1, BeautifulSoup. by rewrite Hparse.
  - intros r soup Hget Hparse Hlen.
    rewrite (fetch_twse_parsed w r soup Hget Hparse).
    unfold page_companies. by rewrite drop_ge by done.
Qed.

(** *** The search *)

Variable lower : str -> str.

Lemma search_loop_filter query items :
  forall results,
    _search_loop lower query items results
    = results ++ List.filter (matches lower query) items.
Proof.
  induction items as [|[name code] items IH]; intros results; simpl.
  { by rewrite app_nil_r. }
  rewrite IH. unfold matches at 2. simpl.
  destruct (contains (lower name) (lower query) || contains code query);
    [by rewrite <- app_assoc | done].
Qed.

Lemma startswith_refl s : startswith s s = true.
Proof. induction s as [|c s IH]; simpl; [done|]. by rewrite N.eqb_refl. Qed.

Lemma contains_refl s : contains s s = true.
Proof. destruct s; simpl; [done|]. by rewrite N.eqb_refl, startswith_refl. Qed.

Lemma search_stocks_filter tw_stocks query :
  query <> [] ->
  search_stocks lower tw_stocks query
  = List.filter (matches lower query) tw_stocks.
Proof.
  intros Hq. unfold search_stocks.
  destruct query; [done|]. simpl. apply search_loop_filter.
Qed.

(** X18.  For a non-empty query [search_stocks] returns the companies
    whose name contains the query, letter case apart, or whose code
    contains it, in the order of the dictionary, and no others; for the
    empty query it returns nothing, although every name contains it. *)
Theorem search_stocks_result (tw_stocks : odict) (query : str) :
  search_stocks lower tw_stocks [] = []
  /\ (query <> [] ->
      search_stocks lower tw_stocks query
      = List.filter (matches lower query) tw_stocks).
Proof.
  split; [done|]. intros Hq. unfold search_stocks.
  destruct query as [|c query]; [done|].
  simpl. apply search_loop_filter.
Qed.

(** X19.  A company of the dictionary is found under its whole name and
    under its whole code, when these are not empty. *)
Theorem search_stocks_finds (tw_stocks : odict) (name code query : str) :
  (name, code) ∈ tw_stocks ->
  query <> [] ->
  query = name \/ query = code ->
  (name, code) ∈ search_stocks lower tw_stocks query.
Proof.
  intros Hin Hq Hnc. rewrite search_stocks_filter by done.
  apply list_elem_of_In, List.filter_In. split; [by apply list_elem_of_In|].
  unfold matches. simpl.
  destruct Hnc as [-> | ->]; rewrite contains_refl; by rewrite ?orb_true_r.
Qed.

(** X20.  Every company that [fetch_twse_stock_list] returns, as
    [StockAnalyzer.__init__] stores it in [self.tw_stocks], is found by
    [search_stocks] under its code. *)
Theorem fetched_company_found (w w' : World) (d : odict) (name code : str) :
  fetch_twse_stock_list env unicode_isdigit w = (Ok d, w') ->
  (name, code) ∈ d ->
  (name, code) ∈ search_stocks lower d code.
Proof.
  intros Hfetch Hin.
  destruct (fetch_twse_invariant w d w' Hfetch) as [_ Hok].
  rewrite Forall_forall in Hok.
  destruct (Hok _ Hin) as (_ & _ & Hcode & _). simpl in Hcode.
  rewrite search_stocks_filter by done.
  apply list_elem_of_In, List.filter_In. split; [by apply list_elem_of_In|].
  unfold matches. simpl. by rewrite contains_refl, orb_true_r.
Qed.

End CompanyFacts.

(** ** Reading the replies of the model *)

Section ReplyFacts.
Import Effects PTTScraper PyStr StockAnalyzer.
Local Open Scope py_scope.

Variable generate_text : str -> Exn + str.
Variable exn_str : Exn -> str.

Lemma startswith_app s rest : startswith (s ++ rest) s = true.
Proof.
  induction s as [|c s IH]; simpl; [by destruct rest|].
  rewrite N.eqb_refl. exact IH.
Qed.

Lemma split_no_sep s sep : sep ∉ s -> split s sep = [s].
Proof.
  induction s as [|c s IH]; intros Hs; simpl; [done|].
  rewrite not_elem_of_cons in Hs. destruct Hs as [Hc Hs].
  rewrite (proj2 (N.eqb_neq c sep)) by done. by rewrite IH.
Qed.

Lemma split_app s sep rest :
  sep ∉ s -> split (s ++ sep :: rest) sep = s :: split rest sep.
Proof.
  induction s as [|c s IH]; intros Hs; simpl.
  { by rewrite N.eqb_refl. }
  rewrite not_elem_of_cons in Hs. destruct Hs as [Hc Hs].
  rewrite (proj2 (N.eqb_neq c sep)) by done. by rewrite IH.
Qed.

Lemma replace_from_skip old new passed rest :
  replace_from old new (length passed) (passed ++ rest)
  = replace_from old new 0 rest.
Proof. induction passed as [|c passed IH]; [done | exact IH]. Qed.

Lemma replace_from_absent old new s :
  contains s old = false -> replace_from old new 0 s = s.
Proof.
  induction s as [|c s IH]; [done|].
  cbn [contains replace_from]. intros [H1 H2]%orb_false_iff.
  by rewrite H1, IH.
Qed.

(** Deleting a label from a line made of the label and of a text that
    does not contain it gives the text. *)
Lemma replace_label label rest :
  label <> [] -> contains rest label = false ->
  replace (label ++ rest) label [] = rest.
Proof.
  intros Hl Hrest. unfold replace.
  destruct label as [|c label]; [done|].
  pose proof (startswith_app (c :: label) rest) as Hstart.
  change ((c :: label) ++ rest) with (c :: (label ++ rest)) in *.
  cbn [replace_from]. rewrite Hstart.
  replace (length (c :: label) - 1) with (length label) by (simpl; lia).
  change ([] ++ ?x) with x.
  by rewrite replace_from_skip, replace_from_absent.
Qed.

Lemma labelled_cons label line rest :
  labelled label (line :: rest)
  = match labelled label rest with
    | Some v => Some v
    | None =>
        if startswith line label
        then Some (Text.strip (replace line label []))
        else None
    end.
Proof.
  unfold labelled. simpl.
  destruct (startswith line label).
  - rewrite last_cons. by destruct (last _).
  - by destruct (last _).
Qed.

(** The labels begin with different characters. *)
Lemma term_labels_apart line :
  (startswith line label_definition = true ->
   startswith line label_importance = false
   /\ startswith line label_analogy = false)
  /\ (startswith line label_importance = true ->
      startswith line label_analogy = false).
Proof.
  destruct line as [|c line]; [done|].
  unfold label_definition, label_importance, label_analogy.
  cbn [startswith]. split.
  - destruct (0x540D =? c)%N eqn:E; [|done].
    apply N.eqb_eq in E as <-. by intros _.
  - destruct (0x91CD =? c)%N eqn:E; [|done].
    apply N.eqb_eq in E as <-. by intros _.
Qed.

Lemma news_labels_apart line :
  startswith line label_sentiment = true ->
  startswith line label_novice = false.
Proof.
  destruct line as [|c line]; [done|].
  unfold label_sentiment, label_novice. cbn [startswith].
  destruct (0x60C5 =? c)%N eqn:E; [|done].
  apply N.eqb_eq in E as <-. by intros _.
Qed.

(** A lookup in the dictionary after one line has been read. *)
Local Ltac reply_lookup :=
  match goal with
  | |- context [labelled ?label ?rest] => destruct (labelled label rest)
  end;
  [done|];
  first [ done
        | by rewrite lookup_insert_eq
        | rewrite lookup_insert_ne; [done | by vm_compute] ].

Lemma term_lines_lookup lines :
  forall analysis_result,
    let result := _term_lines lines analysis_result in
    let or_else (o1 o2 : option str) :=
      match o1 with Some v => Some v | None => o2 end in
    result !! py "definition"
    = or_else (labelled label_definition lines)
              (analysis_result !! py "definition")
    /\ result !! py "importance"
       = or_else (labelled label_importance lines)
                 (analysis_result !! py "importance")
    /\ result !! py "analogy"
       = or_else (labelled label_analogy lines)
                 (analysis_result !! py "analogy")
    /\ (forall k, k ∉ [py "definition"; py "importance"; py "analogy"] ->
                  result !! k = analysis_result !! k).
Proof.
  induction lines as [|line rest IH]; intros acc; [done|].
  cbn zeta. cbn [_term_lines]. rewrite !labelled_cons.
  match goal with |- context [_term_lines rest ?acc'] =>
    destruct (IH acc') as (Hd & Hi & Ha & Hk) end.
  cbn zeta in Hd, Hi, Ha, Hk. rewrite Hd, Hi, Ha. clear Hd Hi Ha.
  assert (forall k,
             k ∉ [py "definition"; py "importance"; py "analogy"] ->
             py "definition" <> k /\ py "importance" <> k
             /\ py "analogy" <> k) as Hkeys.
  { intros k Hn. rewrite !not_elem_of_cons in Hn.
    destruct Hn as (? & ? & ? & _). by repeat split. }
  destruct (term_labels_apart line) as [Hdef Himp].
  destruct (startswith line label_definition) eqn:H1.
  { destruct (Hdef eq_refl) as [-> ->].
    split; [|split; [|split]];
      try (by reply_lookup).
    intros k Hn. destruct (Hkeys k Hn) as (? & ? & ?).
    rewrite Hk by done. by apply lookup_insert_ne. }
  destruct (startswith line label_importance) eqn:H2.
  { rewrite (Himp eq_refl).
    split; [|split; [|split]];
      try (by reply_lookup).
    intros k Hn. destruct (Hkeys k Hn) as (? & ? & ?).
    rewrite Hk by done. by apply lookup_insert_ne. }
  destruct (startswith line label_analogy) eqn:H3.
  { split; [|split; [|split]];
      try (by reply_lookup).
    intros k Hn. destruct (Hkeys k Hn) as (? & ? & ?).
    rewrite Hk by done. by apply lookup_insert_ne. }
  split; [|split; [|split]]; try (by reply_lookup).
  done.
Qed.

Lemma news_lines_lookup lines :
  forall analysis_result,
    let result := _news_lines lines analysis_result in
    let or_else (o1 o2 : option str) :=
      match o1 with Some v => Some v | None => o2 end in
    result !! py "sentiment"
    = or_else (labelled label_sentiment lines)
              (analysis_result !! py "sentiment")
    /\ result !! py "novice_explanation"
       = or_else (labelled label_novice lines)
                 (analysis_result !! py "novice_explanation")
    /\ (forall k, k ∉ [py "sentiment"; py "novice_explanation"] ->
                  result !! k = analysis_result !! k).
Proof.
  induction lines as [|line rest IH]; intros acc; [done|].
  cbn zeta. cbn [_news_lines]. rewrite !labelled_cons.
  match goal with |- context [_news_lines rest ?acc'] =>
    destruct (IH acc') as (Hs & Hn & Hk) end.
  cbn zeta in Hs, Hn, Hk. rewrite Hs, Hn. clear Hs Hn.
  assert (forall k,
             k ∉ [py "sentiment"; py "novice_explanation"] ->
             py "sentiment" <> k /\ py "novice_explanation" <> k) as Hkeys.
  { intros k Hnot. rewrite !not_elem_of_cons in Hnot.
    destruct Hnot as (? & ? & _). by split. }
  pose proof (news_labels_apart line) as Hsent.
  destruct (startswith line label_sentiment) eqn:H1.
  { rewrite (Hsent eq_refl).
    split; [|split]; try (by reply_lookup).
    intros k Hnot. destruct (Hkeys k Hnot) as (? & ?).
    rewrite Hk by done. by apply lookup_insert_ne. }
  destruct (startswith line label_novice) eqn:H2.
  { split; [|split]; try (by reply_lookup).
    intros k Hnot. destruct (Hkeys k Hnot) as (? & ?).
    rewrite Hk by done. by apply lookup_insert_ne. }
  split; [|split]; try (by reply_lookup).
  done.
Qed.

(** X21.  [ask_gemini_for_term] never raises.  When the call of the model
    raises, the result is the dictionary with the one key [error], whose
    value names the term and the exception.  When the model replies, the
    result has no key [error]: under [definition], [importance] and
    [analogy] it has what the last line that starts with the matching
    label says, the key being absent when there is no such line, and it
    has no other key. *)
Theorem ask_gemini_for_term_result (term : str) (w : World) :
  let prompt := term_prompt_head ++ term ++ term_prompt_tail in
  (forall e,
      generate_text prompt = inl e ->
      ask_gemini_for_term generate_text exn_str term w
      = (Ok {[ py "error" :=
                 term_error_head ++ term ++ term_error_middle ++ exn_str e ]},
         {| n_get := n_get w; n_uniform := n_uniform w;
            events := events w ++ [EError e] |}))
  /\ (forall reply,
        generate_text prompt = inr reply ->
        exists result,
          ask_gemini_for_term generate_text exn_str term w = (Ok result, w)
          /\ result !! py "definition"
             = labelled label_definition (split reply 0x0A)
          /\ result !! py "importance"
             = labelled label_importance (split reply 0x0A)
          /\ result !! py "analogy"
             = labelled label_analogy (split reply 0x0A)
          /\ (forall k,
                k ∉ [py "definition"; py "importance"; py "analogy"] ->
                result !! k = None)).
Proof.
  intros prompt. split.
  - intros e He. unfold ask_gemini_for_term. fold prompt.
    erewrite try_except_caught by (by rewrite He). reflexivity.
  - intros reply Hr. eexists. split.
    { unfold ask_gemini_for_term. fold prompt. apply try_except_ok.
      rewrite Hr. reflexivity. }
    destruct (term_lines_lookup (split reply 0x0A) ∅) as (Hd & Hi & Ha & Hk).
    cbn zeta in Hd, Hi, Ha, Hk. rewrite Hd, Hi, Ha, !lookup_empty.
    split; [|split; [|split]];
      try (match goal with
           | |- context [labelled ?l ?x] => by destruct (labelled l x)
           end).
    intros k Hnot. by rewrite Hk.
Qed.

(** X22.  A reply in the format that the prompt asks for is read back: for
    the three labelled lines, in that order, each text without a newline
    and without its own label in it, the result is the dictionary of the
    three texts, stripped. *)
Theorem ask_gemini_for_term_round_trip (term d i a : str) (w : World) :
  generate_text (term_prompt_head ++ term ++ term_prompt_tail)
  = inr (label_definition ++ d ++ [0x0A%N]
         ++ label_importance ++ i ++ [0x0A%N]
         ++ label_analogy ++ a) ->
  0x0A%N ∉ d -> 0x0A%N ∉ i -> 0x0A%N ∉ a ->
  contains d label_definition = false ->
  contains i label_importance = false ->
  contains a label_analogy = false ->
  ask_gemini_for_term generate_text exn_str term w
  = (Ok (<[py "analogy" := Text.strip a]>
         (<[py "importance" := Text.strip i]>
          (<[py "definition" := Text.strip d]> ∅))), w).
Proof.
  intros Hr Hd Hi Ha Hcd Hci Hca.
  unfold ask_gemini_for_term. apply try_except_ok. rewrite Hr.
  cbn [lift]. erewrite bind_ok by reflexivity. cbv beta zeta.
  do 2 f_equal. cbn [app].
  rewrite (app_assoc label_definition d), split_app.
  2:{ rewrite elem_of_app. intros [H|H]; [|done].
      revert H. unfold label_definition. rewrite !elem_of_cons.
      rewrite elem_of_nil. intros H. by repeat destruct H as [H|H]. }
  rewrite (app_assoc label_importance i), split_app.
  2:{ rewrite elem_of_app. intros [H|H]; [|done].
      revert H. unfold label_importance. rewrite !elem_of_cons.
      rewrite elem_of_nil. intros H. by repeat destruct H as [H|H]. }
  rewrite split_no_sep.
  2:{ rewrite elem_of_app. intros [H|H]; [|done].
      revert H. unfold label_analogy. rewrite !elem_of_cons.
      rewrite elem_of_nil. intros H. by repeat destruct H as [H|H]. }
  cbn [_term_lines].
  rewrite (startswith_app label_definition d).
  rewrite (replace_label label_definition d) by done.
  destruct (term_labels_apart (label_importance ++ i)) as [_ Himp].
  assert (startswith (label_importance ++ i) label_definition = false)
    as -> by done.
  rewrite (startswith_app label_importance i).
  rewrite (replace_label label_importance i) by done.
  assert (startswith (label_analogy ++ a) label_definition = false)
    as -> by done.
  assert (startswith (label_analogy ++ a) label_importance = false)
    as -> by done.
  rewrite (startswith_app label_analogy a).
  by rewrite (replace_label label_analogy a) by done.
Qed.

(** X23.  [analyze_news_with_gemini] never raises.  When the call of the
    model raises, the result is the dictionary with the one key [error].
    When the model replies, the result has no key [error]: under
    [sentiment] and [novice_explanation] it has what the last line that
    starts with the matching label says, the key being absent when there
    is no such line, and it has no other key. *)
Theorem analyze_news_with_gemini_result (title summary : str) (w : World) :
  let prompt :=
    news_prompt_head ++ title ++ news_prompt_middle ++ summary
    ++ news_prompt_tail in
  (forall e,
      generate_text prompt = inl e ->
      analyze_news_with_gemini generate_text exn_str title summary w
      = (Ok {[ py "error" := news_error_head ++ exn_str e ]},
         {| n_get := n_get w; n_uniform := n_uniform w;
            events := events w ++ [EError e] |}))
  /\ (forall reply,
        generate_text prompt = inr reply ->
        exists result,
          analyze_news_with_gemini generate_text exn_str title summary w
          = (Ok result, w)
          /\ result !! py "sentiment"
             = labelled label_sentiment (split reply 0x0A)
          /\ result !! py "novice_explanation"
             = labelled label_novice (split reply 0x0A)
          /\ (forall k,
                k ∉ [py "sentiment"; py "novice_explanation"] ->
                result !! k = None)).
Proof.
  intros prompt. split.
  - intros e He. unfold analyze_news_with_gemini. fold prompt.
    erewrite try_except_caught by (by rewrite He). reflexivity.
  - intros reply Hr. eexists. split.
    { unfold analyze_news_with_gemini. fold prompt. apply try_except_ok.
      rewrite Hr. reflexivity. }
    destruct (news_lines_lookup (split reply 0x0A) ∅) as (Hs & Hn & Hk).
    cbn zeta in Hs, Hn, Hk. rewrite Hs, Hn, !lookup_empty.
    split; [|split];
      try (match goal with
           | |- context [labelled ?l ?x] => by destruct (labelled l x)
           end).
    intros k Hnot. by rewrite Hk.
Qed.

End ReplyFacts.

(** ** More concrete runs *)

Section MoreRuns.
Import Soup Effects PTTScraper PyStr ODict Feed Twse StockAnalyzer.
Import Fixtures MoreFixtures.

Lemma get_posts_effort_witness :
  exists new,
    events (get_ptt_stock_posts env_board default_scraper board_url 5
              world0).2
    = events world0 ++ new
    /\ count_events is_get new <= 3 * (1 + 5)
    /\ count_events is_sleep new <= (3 - 1) * (1 + 5).
Proof.
  apply (get_posts_effort env_board default_scraper board_url 5 world0).
  lia.
Defined.

Lemma make_request_response_witness :
  exists i,
    3 = S i /\ 0 <= i
    /\ http_get env_flaky i board_url = inr (response_200 board_url)
    /\ ((200 < 400)%Z \/ (600 <= 200)%Z).
Proof.
  apply (make_request_response env_flaky default_scraper board_url world0
           (_make_request env_flaky default_scraper board_url world0).2
           (response_200 board_url)).
  reflexivity.
Defined.

Lemma unexpected_exception_not_retried_witness :
  _make_request env_broken default_scraper board_url world0
  = (Raise (OtherException (py "unexpected")),
     {| n_get := 1; n_uniform := 0; events := [EGet board_url] |})
  /\ get_ptt_stock_posts env_broken default_scraper board_url 5 world0
     = (Ok [],
        {| n_get := 1; n_uniform := 0;
           events := [EGet board_url;
                      EError (OtherException (py "unexpected"))] |})
  /\ _get_post_content env_broken default_scraper board_url world0
     = (Ok error_extracting_content,
        {| n_get := 1; n_uniform := 0;
           events := [EGet board_url;
                      EError (OtherException (py "unexpected"))] |}).
Proof.
  apply (unexpected_exception_not_retried env_broken default_scraper
           board_url 5 world0 (OtherException (py "unexpected")));
    [simpl; lia | reflexivity | reflexivity].
Defined.

Lemma negative_wait_gives_up_witness :
  _make_request env_down negative_delay_scraper board_url world0
  = (Raise (ValueError (py "sleep length must be non-negative")),
     {| n_get := 1; n_uniform := 1;
        events := [EGet board_url; EWarning 1 3 (HTTPError 500)] |})
  /\ get_ptt_stock_posts env_down negative_delay_scraper board_url 5 world0
     = (Ok [],
        {| n_get := 1; n_uniform := 1;
           events :=
             [EGet board_url; EWarning 1 3 (HTTPError 500);
              EError (ValueError
                        (py "sleep length must be non-negative"))] |}).
Proof.
  apply (negative_wait_gives_up env_down negative_delay_scraper board_url 5
           world0 (HTTPError 500)).
  - simpl. lia.
  - split; reflexivity.
  - reflexivity.
Defined.

Lemma extract_post_info_no_href_witness :
  _extract_post_info env_board anchorless_entry world0
  = (Ok None,
     {| n_get := 0; n_uniform := 0;
        events := [EError (KeyError (py "href"))] |}).
Proof.
  apply (extract_post_info_no_href env_board anchorless_entry
           (element "a" [] [] [NavigableString (py "no address")]) world0);
    reflexivity.
Defined.

Lemma extract_post_info_defaults_witness :
  exists info,
    _extract_post_info env_board anonymous_entry world0
    = (Ok (Some info), world0)
    /\ (find (is_div_with_class (py "author")) anonymous_entry = None ->
        info !! py "author" = Some (py "NA"))
    /\ (find (is_div_with_class (py "date")) anonymous_entry = None ->
        info !! py "date" = Some (py "NA")).
Proof.
  apply (extract_post_info_defaults env_board anonymous_entry world0).
  reflexivity.
Defined.

Lemma clean_text_idempotent_on_allowed_witness :
  single_spaced false (Text._clean_text cjk_isalnum (py " a   b, c! ")) = true
  /\ Text._clean_text cjk_isalnum
       (Text._clean_text cjk_isalnum (py " a   b, c! "))
     = Text._clean_text cjk_isalnum (py " a   b, c! ").
Proof.
  apply (clean_text_idempotent_on_allowed cjk_isalnum (py " a   b, c! ")).
  repeat (constructor; [reflexivity|]). constructor.
Defined.

Lemma get_rss_news_items_witness :
  get_rss_news (inr [entry_full; entry_bare; entry_untitled]) 2 world0
  = (Ok [news_item entry_full; news_item entry_bare], world0).
Proof.
  apply (get_rss_news_items [entry_full; entry_bare; entry_untitled] 2
           world0).
  repeat (constructor; [reflexivity|]). constructor.
Defined.

Lemma get_rss_news_all_or_nothing_witness :
  get_rss_news (inr [entry_full; entry_bare; entry_untitled]) 3 world0
  = (Ok [],
     {| n_get := 0; n_uniform := 0;
        events := [EError (AttributeError (py "title"))] |}).
Proof.
  apply (get_rss_news_all_or_nothing
           [entry_full; entry_bare; entry_untitled]
           [entry_full; entry_bare] [] entry_untitled 3 world0).
  - reflexivity.
  - repeat (constructor; [reflexivity|]). constructor.
  - reflexivity.
Defined.

Lemma get_rss_news_bounded_witness :
  exists items w',
    get_rss_news (inr [entry_full; entry_bare; entry_untitled]) 3 world0
    = (Ok items, w')
    /\ (Z.of_nat (length items) <= 3)%Z
    /\ Forall has_four_fields items.
Proof.
  apply (get_rss_news_bounded (inr [entry_full; entry_bare; entry_untitled])
           3 world0).
  lia.
Defined.

Lemma fetch_twse_stock_list_lookup_witness :
  exists d w',
    fetch_twse_stock_list env_twse ascii_only_isdigit world0 = (Ok d, w')
    /\ get d (py "TSMC")
       = snd <$> last (List.filter
                         (fun item => bool_decide (item.1 = py "TSMC"))
                         (page_companies ascii_only_isdigit twse_soup)).
Proof.
  apply (fetch_twse_stock_list_lookup env_twse ascii_only_isdigit world0
           {| status_code := 404; text := py "table" |} twse_soup
           (py "TSMC")); reflexivity.
Defined.

Lemma fetch_twse_stock_list_empty_witness :
  fetch_twse_stock_list env_broken ascii_only_isdigit world0
  = (Ok [],
     {| n_get := 1; n_uniform := 0;
        events := [EGet twse_url;
                   EError (OtherException (py "unexpected"))] |})
  /\ fetch_twse_stock_list env_bare ascii_only_isdigit world0
     = (Ok [], {| n_get := 1; n_uniform := 0; events := [EGet twse_url] |}).
Proof.
  split.
  - apply (proj1 (fetch_twse_stock_list_empty env_broken ascii_only_isdigit
                    world0) (OtherException (py "unexpected"))).
    left. reflexivity.
  - apply (proj2 (fetch_twse_stock_list_empty env_bare ascii_only_isdigit
                    world0) (response_200 twse_url) bare_soup);
      [reflexivity | reflexivity | simpl; lia].
Defined.

Lemma search_stocks_finds_witness :
  (py "Hon Hai", py "2317") ∈ search_stocks ascii_lower stocks (py "2317")
  /\ (py "Hon Hai", py "2317")
     ∈ search_stocks ascii_lower stocks (py "Hon Hai").
Proof.
  split.
  - apply (search_stocks_finds ascii_lower stocks (py "Hon Hai") (py "2317")
             (py "2317"));
      [apply elem_of_cons; right; apply elem_of_cons; by left
      | done | by right].
  - apply (search_stocks_finds ascii_lower stocks (py "Hon Hai") (py "2317")
             (py "Hon Hai"));
      [apply elem_of_cons; right; apply elem_of_cons; by left
      | done | by left].
Defined.

Lemma fetched_company_found_witness :
  (py "Hon Hai", py "2317")
  ∈ search_stocks ascii_lower [(py "TSMC", py "2330"); (py "Hon Hai", py "2317")]
      (py "2317").
Proof.
  apply (fetched_company_found env_twse ascii_only_isdigit ascii_lower world0
           {| n_get := 1; n_uniform := 0; events := [EGet twse_url] |}).
  - reflexivity.
  - apply elem_of_cons; right; apply elem_of_cons; by left.
Defined.

Lemma ask_gemini_for_term_result_witness :
  ask_gemini_for_term model_down exn_detail (py "EPS") world0
  = (Ok {[ py "error" :=
             term_error_head ++ py "EPS" ++ term_error_middle
             ++ py "503 service unavailable" ]},
     {| n_get := 0; n_uniform := 0;
        events := [EError (OtherException (py "503 service unavailable"))] |})
  /\ exists result,
       ask_gemini_for_term model_off_format exn_detail (py "EPS") world0
       = (Ok result, world0)
       /\ result !! py "definition" = None
       /\ result !! py "importance" = None
       /\ result !! py "analogy" = None
       /\ (forall k,
             k ∉ [py "definition"; py "importance"; py "analogy"] ->
             result !! k = None).
Proof.
  split.
  - apply (proj1 (ask_gemini_for_term_result model_down exn_detail (py "EPS")
                    world0)
             (OtherException (py "503 service unavailable"))).
    reflexivity.
  - apply (proj2 (ask_gemini_for_term_result model_off_format exn_detail
                    (py "EPS") world0)
             (py "Sorry, I cannot help with that.")).
    reflexivity.
Defined.

Lemma ask_gemini_for_term_round_trip_witness :
  ask_gemini_for_term model_in_format exn_detail (py "EPS") world0
  = (Ok (<[py "analogy" := py "A slice of the pie."]>
         (<[py "importance" := py "It relates profit to one share."]>
          (<[py "definition" := py "Earnings per share."]> ∅))), world0).
Proof.
  apply (ask_gemini_for_term_round_trip model_in_format exn_detail (py "EPS")
           reply_definition reply_importance reply_analogy world0);
    first [reflexivity | compute_done].
Defined.

Lemma analyze_news_with_gemini_result_witness :
  analyze_news_with_gemini model_down exn_detail (py "TSMC at record")
    (py "") world0
  = (Ok {[ py "error" := news_error_head ++ py "503 service unavailable" ]},
     {| n_get := 0; n_uniform := 0;
        events := [EError (OtherException (py "503 service unavailable"))] |}).
Proof.
  apply (proj1 (analyze_news_with_gemini_result model_down exn_detail
                  (py "TSMC at record") (py "") world0)
           (OtherException (py "503 service unavailable"))).
  reflexivity.
Defined.

End MoreRuns.
